(** * A shallow embedding of the caching service worker

    The embedded program is the service worker script (the second
    document of [validate-performance.js]): the strategy router
    [getCacheStrategy], the five strategy executors, the [install] and
    [activate] lifecycle listeners, the periodic sweep [cleanupCaches]
    and the push / notification-click listeners.

    The host platform (Cache Storage, [fetch], notifications) is not
    part of the script.  It is modelled by the small store below:
    a cache is an association list from request URL to response, the
    cache storage an association list from cache name to cache, both in
    creation order; [fetch] is answered by an explicit network oracle. *)

From Stdlib Require Import String Ascii List ZArith Bool Lia.
Import ListNotations.

Local Open Scope string_scope.
Local Open Scope Z_scope.

(** ** JavaScript string primitives used by the script *)

Module JSString.

(** [s.startsWith(p)] *)
Definition startsWith (s p : string) : bool := String.prefix p s.

(** [s.includes(sub)]: [sub] occurs somewhere in [s]. *)
Fixpoint includes (s sub : string) : bool :=
  if String.prefix sub s then true
  else match s with
       | EmptyString => false
       | String _ rest => includes rest sub
       end.

(** [s] ends with [suffix] (the [$] anchor of a regular expression
    without the multiline flag). *)
Fixpoint endsWith (s suffix : string) : bool :=
  if String.eqb s suffix then true
  else match s with
       | EmptyString => false
       | String _ rest => endsWith rest suffix
       end.

(** ASCII case folding, as performed by the [i] flag on the code
    units of a URL path. *)
Definition lower_ascii (c : ascii) : ascii :=
  let n := nat_of_ascii c in
  if (Nat.leb 65 n && Nat.leb n 90)%bool then ascii_of_nat (n + 32) else c.

Fixpoint toLowerCase (s : string) : string :=
  match s with
  | EmptyString => EmptyString
  | String c rest => String (lower_ascii c) (toLowerCase rest)
  end.

(** The values of a comma-separated header: split at the commas, each
    value stripped of leading and trailing spaces and tabs. *)
Definition is_whitespace (c : ascii) : bool :=
  Ascii.eqb c " " || Ascii.eqb c "009".

Fixpoint trimStart (s : string) : string :=
  match s with
  | EmptyString => EmptyString
  | String c rest => if is_whitespace c then trimStart rest else s
  end.

Fixpoint reverse_onto (s acc : string) : string :=
  match s with
  | EmptyString => acc
  | String c rest => reverse_onto rest (String c acc)
  end.

Definition reverse (s : string) : string := reverse_onto s EmptyString.

Definition trim (s : string) : string :=
  reverse (trimStart (reverse (trimStart s))).

(** [current] holds, reversed, the characters of the value being read. *)
Fixpoint split_commas (s current : string) : list string :=
  match s with
  | EmptyString => [reverse current]
  | String c rest =>
      if Ascii.eqb c ","
      then reverse current :: split_commas rest EmptyString
      else split_commas rest (String c current)
  end.

Definition field_values (v : string) : list string :=
  map trim (split_commas v EmptyString).

End JSString.

(** ** Requests and responses *)

(** The parsed form of [new URL(request.url)]; [href] is the serialised
    URL, i.e. [request.url] itself. *)
Record URL := mkURL {
  protocol : string;      (* "https:" *)
  hostname : string;
  pathname : string;
  search   : string       (* "" or "?..." *)
}.

Definition href (u : URL) : string :=
  protocol u ++ "//" ++ hostname u ++ pathname u ++ search u.

(** Header lists; names are stored lower-cased, as [Headers] does. *)
Definition Headers := list (string * string).

Fixpoint headers_get (name : string) (h : Headers) : option string :=
  match h with
  | [] => None
  | (n, v) :: rest => if String.eqb n name then Some v else headers_get name rest
  end.

Record Request := mkRequest {
  method  : string;
  url     : URL;
  req_headers : Headers
}.

Record Response := mkResponse {
  status : Z;
  resp_headers : Headers;
  body : string
}.

(** [response.ok]: the status is in the range 200-299. *)
Definition ok (r : Response) : bool := (200 <=? status r) && (status r <=? 299).

(** A cached resource is identified by the request URL (query included). *)
Definition RequestKey := string.
Definition request_key (r : Request) : RequestKey := href (url r).

(** ** StrategyRouter *)

Inductive Strategy :=
| cacheFirstS
| networkFirstS
| cacheOnlyS
| networkOnlyS
| staleWhileRevalidateS.

(** The alternation of the regular expression
    [/\.(css|js|png|jpg|jpeg|gif|svg|woff|woff2|ttf|eot)$/i]. *)
Definition static_extensions : list string :=
  ["css"; "js"; "png"; "jpg"; "jpeg"; "gif"; "svg"; "woff"; "woff2"; "ttf"; "eot"].

Definition matches_static_extension (path : string) : bool :=
  existsb (fun ext => JSString.endsWith (JSString.toLowerCase path) ("." ++ ext))
          static_extensions.

(** [request.headers.get('accept')?.includes('application/json')],
    where [undefined] is falsy. *)
Definition accepts_json (request : Request) : bool :=
  match headers_get "accept" (req_headers request) with
  | Some a => JSString.includes a "application/json"
  | None => false
  end.

Definition getCacheStrategy (request : Request) : Strategy :=
  let pathname := pathname (url request) in
  let hostname := hostname (url request) in
  if JSString.includes hostname "google-analytics.com"
     || JSString.includes hostname "googletagmanager.com"
     || JSString.includes pathname "/analytics/"
  then networkOnlyS
  else if JSString.includes pathname "/api/"
          || JSString.includes pathname ".json"
          || accepts_json request
  then networkFirstS
  else if matches_static_extension pathname
          || JSString.includes hostname "fonts.googleapis.com"
          || JSString.includes hostname "fonts.gstatic.com"
          || JSString.includes hostname "cdnjs.cloudflare.com"
  then cacheFirstS
  else staleWhileRevalidateS.

(** The four rule conditions, named as the router's comments name them. *)
Definition is_analytics (request : Request) : bool :=
  JSString.includes (hostname (url request)) "google-analytics.com"
  || JSString.includes (hostname (url request)) "googletagmanager.com"
  || JSString.includes (pathname (url request)) "/analytics/".

Definition is_api (request : Request) : bool :=
  JSString.includes (pathname (url request)) "/api/"
  || JSString.includes (pathname (url request)) ".json"
  || accepts_json request.

Definition is_static_asset (request : Request) : bool :=
  matches_static_extension (pathname (url request))
  || JSString.includes (hostname (url request)) "fonts.googleapis.com"
  || JSString.includes (hostname (url request)) "fonts.gstatic.com"
  || JSString.includes (hostname (url request)) "cdnjs.cloudflare.com".

(** ** The platform store: caches, cache storage, network *)

Definition Cache := list (RequestKey * Response).
Definition CacheStorage := list (string * Cache).

Module Platform.

(** [cache.match(request)]: the stored response for the key, if any. *)
Fixpoint cache_lookup (c : Cache) (k : RequestKey) : option Response :=
  match c with
  | [] => None
  | (k', r) :: rest => if String.eqb k' k then Some r else cache_lookup rest k
  end.

(** [cache.delete(request)] *)
Definition cache_remove (c : Cache) (k : RequestKey) : Cache :=
  filter (fun e => negb (String.eqb (fst e) k)) c.

(** [cache.put(request, response)]: a full overwrite of the key. *)
Definition cache_store (c : Cache) (k : RequestKey) (r : Response) : Cache :=
  (cache_remove c k ++ [(k, r)])%list.

Fixpoint find (s : CacheStorage) (name : string) : option Cache :=
  match s with
  | [] => None
  | (n, c) :: rest => if String.eqb n name then Some c else find rest name
  end.

(** [caches.open(name)] creates the cache when it does not exist. *)
Definition open (s : CacheStorage) (name : string) : CacheStorage :=
  match find s name with
  | Some _ => s
  | None => (s ++ [(name, [])])%list
  end.

Fixpoint update (s : CacheStorage) (name : string) (f : Cache -> Cache)
  : CacheStorage :=
  match s with
  | [] => []
  | (n, c) :: rest =>
      if String.eqb n name then (n, f c) :: rest
      else (n, c) :: update rest name f
  end.

(** [caches.delete(name)] *)
Definition delete (s : CacheStorage) (name : string) : CacheStorage :=
  filter (fun e => negb (String.eqb (fst e) name)) s.

(** [caches.keys()]: the cache names, in creation order. *)
Definition keys (s : CacheStorage) : list string := map fst s.

(** [caches.match(request)]: the first hit over all caches, in
    creation order. *)
Fixpoint match_any (s : CacheStorage) (k : RequestKey) : option Response :=
  match s with
  | [] => None
  | (_, c) :: rest =>
      match cache_lookup c k with
      | Some r => Some r
      | None => match_any rest k
      end
  end.

(** What [cache.put] and [cache.addAll] refuse: they reject, and store
    nothing, for a request that is not a GET over http or https, and
    for a response with status 206 or with a [Vary] header holding [*]. *)
Definition http_url (k : RequestKey) : bool :=
  JSString.startsWith k "http:" || JSString.startsWith k "https:".

Definition accepts_request (request : Request) : bool :=
  String.eqb (method request) "GET" && http_url (request_key request).

Definition vary_star (r : Response) : bool :=
  match headers_get "vary" (resp_headers r) with
  | Some v => existsb (String.eqb "*") (JSString.field_values v)
  | None => false
  end.

Definition accepts_response (r : Response) : bool :=
  negb (status r =? 206) && negb (vary_star r).

(** The entry of cache [name] under key [k]; a missing cache is an
    empty cache. *)
Definition entry (s : CacheStorage) (name : string) (k : RequestKey)
  : option Response :=
  match find s name with
  | Some c => cache_lookup c k
  | None => None
  end.

(** The entries of cache [name]. *)
Definition entries (s : CacheStorage) (name : string) : Cache :=
  match find s name with
  | Some c => c
  | None => []
  end.

End Platform.

(** Outcome of one network fetch: the promise resolves with a response
    (of any status) or rejects. *)
Inductive FetchResult :=
| Resolved (r : Response)
| Rejected.

Definition Network := RequestKey -> FetchResult.

(** Observable effects, in the order they happen. *)
Inductive Event :=
| EvFetch (k : RequestKey)
| EvPut (name : string) (k : RequestKey) (r : Response)
| EvDelete (name : string) (k : RequestKey)
| EvDeleteCache (name : string)
| EvSkipWaiting
| EvClientsClaim.

Record World := mkWorld {
  caches : CacheStorage;
  trace  : list Event
}.

(** ** The effect monad of the worker: state plus exceptions *)

Inductive Completion (A : Type) :=
| Normal (a : A)
| Throw (error : string).
Arguments Normal {A} a.
Arguments Throw {A} error.

Definition M (A : Type) : Type := World -> Completion A * World.

Definition ret {A} (a : A) : M A := fun w => (Normal a, w).

Definition bind {A B} (m : M A) (k : A -> M B) : M B :=
  fun w => match m w with
           | (Normal a, w') => k a w'
           | (Throw e, w') => (Throw e, w')
           end.

Definition throw {A} (e : string) : M A := fun w => (Throw e, w).

(** [try { body } catch (error) { handler }] *)
Definition try_catch {A} (body : M A) (handler : string -> M A) : M A :=
  fun w => match body w with
           | (Normal a, w') => (Normal a, w')
           | (Throw e, w') => handler e w'
           end.

Declare Scope worker_scope.
Delimit Scope worker_scope with worker.
Notation "x <- m ;; k" := (bind m (fun x => k))
  (at level 100, m at next level, right associativity) : worker_scope.
Notation "m ;; k" := (bind m (fun _ => k))
  (at level 100, right associativity) : worker_scope.
Local Open Scope worker_scope.

Definition emit (e : Event) : M unit :=
  fun w => (Normal tt, mkWorld (caches w) (trace w ++ [e])%list).

Definition modify_caches (f : CacheStorage -> CacheStorage) : M unit :=
  fun w => (Normal tt, mkWorld (f (caches w)) (trace w)).

Definition read_caches {A} (f : CacheStorage -> A) : M A :=
  fun w => (Normal (f (caches w)), w).

(** [caches.match(request)] *)
Definition caches_match (k : RequestKey) : M (option Response) :=
  read_caches (fun s => Platform.match_any s k).

(** [caches.open(name)]; the handle of the opened cache is its name. *)
Definition caches_open (name : string) : M string :=
  modify_caches (fun s => Platform.open s name) ;; ret name.

(** [caches.keys()] *)
Definition caches_keys : M (list string) := read_caches Platform.keys.

(** [caches.delete(name)] *)
Definition caches_delete (name : string) : M unit :=
  emit (EvDeleteCache name) ;;
  modify_caches (fun s => Platform.delete s name).

(** [cache.match(request)] on an opened cache. *)
Definition cache_match (cache : string) (k : RequestKey) : M (option Response) :=
  read_caches (fun s => Platform.entry s cache k).

(** The write of one entry into an opened cache. *)
Definition cache_write (cache : string) (k : RequestKey) (r : Response) : M unit :=
  emit (EvPut cache k r) ;;
  modify_caches (fun s => Platform.update s cache (fun c => Platform.cache_store c k r)).

(** [cache.put(request, response.clone())], as the script calls it:
    the promise it returns is neither awaited nor caught, so when the
    platform refuses the request or the response the put rejects
    unobserved, nothing is stored, and the caller goes on. *)
Definition cache_put (cache : string) (request : Request) (r : Response) : M unit :=
  if Platform.accepts_request request && Platform.accepts_response r
  then cache_write cache (request_key request) r
  else ret tt.

(** [cache.delete(request)] *)
Definition cache_delete (cache : string) (k : RequestKey) : M unit :=
  emit (EvDelete cache k) ;;
  modify_caches (fun s => Platform.update s cache (fun c => Platform.cache_remove c k)).

(** [cache.keys()] *)
Definition cache_keys (cache : string) : M (list RequestKey) :=
  read_caches (fun s => map fst (Platform.entries s cache)).

(** [await fetch(request)]: a rejected fetch throws. *)
Definition fetch (net : Network) (k : RequestKey) : M Response :=
  emit (EvFetch k) ;;
  match net k with
  | Resolved r => ret r
  | Rejected => throw "TypeError: Failed to fetch"
  end.

(** ** Constants of the script *)

Definition CACHE_NAME := "mcp-docs-v1".
Definition STATIC_CACHE := "mcp-static-v1".
Definition DYNAMIC_CACHE := "mcp-dynamic-v1".

Definition STATIC_ASSETS : list string :=
  [ "/";
    "/index.html";
    "/performance-monitor.js";
    "https://cdn.tailwindcss.com";
    "https://fonts.googleapis.com/css2?family=Crimson+Text:ital,wght@0,400;0,600;1,400&family=Inter:wght@300;400;500;600;700&display=swap";
    "https://cdnjs.cloudflare.com/ajax/libs/font-awesome/6.4.0/css/all.min.css";
    "https://cdn.jsdelivr.net/npm/mermaid@10.6.1/dist/mermaid.min.js";
    "https://cdnjs.cloudflare.com/ajax/libs/hammer.js/2.0.8/hammer.min.js" ].

(** [new Response(text, { status })]: a text body gets the platform's
    default content type. *)
Definition new_Response (text : string) (st : Z) : Response :=
  mkResponse st [("content-type", "text/plain;charset=UTF-8")] text.

Definition offline_response : Response := new_Response "Offline" 503.
Definition not_found_response : Response := new_Response "Not found in cache" 404.

(** ** StrategyExecutors *)

Definition cacheFirst (net : Network) (request : Request) : M Response :=
  try_catch
    (cachedResponse <- caches_match (request_key request) ;;
     match cachedResponse with
     | Some cached => ret cached
     | None =>
         networkResponse <- fetch net (request_key request) ;;
         (if ok networkResponse
          then cache <- caches_open STATIC_CACHE ;;
               cache_put cache request networkResponse
          else ret tt) ;;
         ret networkResponse
     end)
    (fun error => ret offline_response).

Definition networkFirst (net : Network) (request : Request) : M Response :=
  try_catch
    (networkResponse <- fetch net (request_key request) ;;
     (if ok networkResponse
      then cache <- caches_open DYNAMIC_CACHE ;;
           cache_put cache request networkResponse
      else ret tt) ;;
     ret networkResponse)
    (fun error =>
       cachedResponse <- caches_match (request_key request) ;;
       match cachedResponse with
       | Some cached => ret cached
       | None => ret offline_response
       end).

Definition cacheOnly (request : Request) : M Response :=
  cachedResponse <- caches_match (request_key request) ;;
  match cachedResponse with
  | Some cached => ret cached
  | None => ret not_found_response
  end.

Definition networkOnly (net : Network) (request : Request) : M Response :=
  fetch net (request_key request).

(** *** StaleWhileRevalidate

    The function starts the fetch, attaches a continuation to it and
    returns without awaiting it when a cached response exists.  The
    embedding keeps the two halves apart: [staleWhileRevalidate] is the
    body of the function up to its [return], and takes no network
    outcome; [networkResponsePromise] is the [.then(...).catch(...)]
    chain, run when the fetch settles. *)

(** What the function body returns: a response object, or the promise
    [networkResponsePromise] itself. *)
Inductive Returned :=
| RetResponse (r : Response)
| RetPromise.

(** JavaScript truthiness: every object is truthy, a promise included. *)
Definition truthy (v : Returned) : bool :=
  match v with
  | RetResponse _ => true
  | RetPromise => true
  end.

(** [a || b] *)
Definition js_or (a b : Returned) : Returned := if truthy a then a else b.

(** The chain [fetch(request).then(response => ...).catch(error => null)];
    [None] is [null]. *)
Definition networkResponsePromise (cache : string) (request : Request)
           (outcome : FetchResult) : M (option Response) :=
  match outcome with
  | Resolved response =>
      (if ok response
       then cache_put cache request response
       else ret tt) ;;
      ret (Some response)
  | Rejected => ret None
  end.

Definition staleWhileRevalidate (request : Request) : M Returned :=
  cache <- caches_open DYNAMIC_CACHE ;;
  cachedResponse <- cache_match cache (request_key request) ;;
  emit (EvFetch (request_key request)) ;;
  match cachedResponse with
  | Some cached => ret (RetResponse cached)
  | None => ret (js_or RetPromise (RetResponse offline_response))
  end.

(** The value the caller's promise finally resolves to, once the fetch
    has settled with [net]'s outcome: a returned response as it is, a
    returned promise through the chain's result. *)
Definition staleWhileRevalidate_settled (net : Network) (request : Request)
  : M (option Response) :=
  returned <- staleWhileRevalidate request ;;
  chained <- networkResponsePromise DYNAMIC_CACHE request (net (request_key request)) ;;
  match returned with
  | RetResponse r => ret (Some r)
  | RetPromise => ret chained
  end.

(** ** The fetch listener *)

Definition lift_response (m : M Response) : M (option Response) :=
  r <- m ;; ret (Some r).

(** The [switch] of the listener: the promise handed to
    [event.respondWith]. *)
Definition respondWith (net : Network) (strategy : Strategy) (request : Request)
  : M (option Response) :=
  match strategy with
  | cacheFirstS => lift_response (cacheFirst net request)
  | networkFirstS => lift_response (networkFirst net request)
  | cacheOnlyS => lift_response (cacheOnly request)
  | networkOnlyS => lift_response (networkOnly net request)
  | staleWhileRevalidateS => staleWhileRevalidate_settled net request
  end.

(** [None]: the listener returns without calling [respondWith]; the
    request is not intercepted. *)
Definition onFetch (net : Network) (request : Request)
  : option (M (option Response)) :=
  if negb (String.eqb (method request) "GET") then None
  else if negb (JSString.startsWith (href (url request)) "http") then None
  else Some (respondWith net (getCacheStrategy request) request).

(** ** LifecycleController *)

Fixpoint for_each {A} (l : list A) (f : A -> M unit) : M unit :=
  match l with
  | [] => ret tt
  | x :: rest => f x ;; for_each rest f
  end.

(** The responses [cache.addAll] is about to store: every fetch has to
    resolve with an [ok] response that the cache accepts (not a 206, no
    [Vary: *]); otherwise there is nothing to store. *)
Fixpoint collect (net : Network) (ks : list RequestKey)
  : option (list (RequestKey * Response)) :=
  match ks with
  | [] => Some []
  | k :: rest =>
      match net k with
      | Resolved r =>
          if ok r && Platform.accepts_response r
          then match collect net rest with
               | Some rs => Some ((k, r) :: rs)
               | None => None
               end
          else None
      | Rejected => None
      end
  end.

(** [cache.addAll(urls)] of the platform: a URL that is not an http or
    https URL makes it reject before anything is fetched; otherwise all
    requests are fetched, and the promise rejects, with nothing stored,
    unless every one of them resolved with a response that passes the
    checks above; then all of them are stored. *)
Definition addAll (net : Network) (cache : string) (ks : list RequestKey) : M unit :=
  if forallb Platform.http_url ks
  then for_each ks (fun k => emit (EvFetch k)) ;;
       match collect net ks with
       | Some rs => for_each rs (fun e => cache_write cache (fst e) (snd e))
       | None => throw "TypeError: Request failed"
       end
  else throw "TypeError: Request scheme is unsupported".

(** The [install] listener, for a manifest of URLs; [resolve] is the
    platform's resolution of a manifest URL against the worker's
    location.  The trailing [.catch] logs the error and lets the
    promise handed to [waitUntil] fulfil. *)
Definition install (net : Network) (resolve : string -> RequestKey)
           (manifest : list string) : M unit :=
  try_catch
    (cache <- caches_open STATIC_CACHE ;;
     addAll net cache (map resolve manifest) ;;
     emit EvSkipWaiting)
    (fun error => ret tt).

Definition onInstall (net : Network) (resolve : string -> RequestKey) : M unit :=
  install net resolve STATIC_ASSETS.

(** The [activate] listener. *)
Definition activate : M unit :=
  cacheNames <- caches_keys ;;
  for_each cacheNames
    (fun cacheName =>
       if negb (String.eqb cacheName STATIC_CACHE)
          && negb (String.eqb cacheName DYNAMIC_CACHE)
       then caches_delete cacheName
       else ret tt) ;;
  emit EvClientsClaim.

(** ** BackgroundTaskQueue: the expiry sweep *)

Definition ONE_WEEK_MS : Z := 7 * 24 * 60 * 60 * 1000.

(** [Date_parse s] is [new Date(s).getTime()], with [None] for [NaN];
    [now] is [Date.now()].  Times are milliseconds since the epoch. *)
Definition cleanupCaches (Date_parse : string -> option Z) (now : Z) : M unit :=
  cacheNames <- caches_keys ;;
  dynamicCache <- caches_open DYNAMIC_CACHE ;;
  requests <- cache_keys dynamicCache ;;
  let oneWeekAgo := now - ONE_WEEK_MS in
  for_each requests
    (fun request =>
       found <- cache_match dynamicCache request ;;
       match found with
       | None => throw "TypeError: Cannot read properties of undefined"
       | Some response =>
           match headers_get "date" (resp_headers response) with
           | Some dateHeader =>
               if String.eqb dateHeader "" then ret tt
               else match Date_parse dateHeader with
                    | Some responseDate =>
                        if responseDate <? oneWeekAgo
                        then cache_delete dynamicCache request
                        else ret tt
                    | None => ret tt
                    end
           | None => ret tt
           end
       end).

(** ** NotificationHook *)

Record PushPayload := mkPushPayload {
  push_title : string;
  push_body  : string;
  push_tag   : option string;
  push_requireInteraction : option bool;
  push_url   : option string
}.

(** The [data] member attached to a notification, as far as the click
    listener reads it. *)
Record NotificationData := mkNotificationData {
  data_url : option string
}.

(** The options dictionary of [showNotification]; an absent [data]
    member is [None] and yields a notification whose [data] is [null]. *)
Record NotificationOptions := mkNotificationOptions {
  opt_body  : string;
  opt_icon  : string;
  opt_badge : string;
  opt_tag   : string;
  opt_requireInteraction : bool;
  opt_data  : option NotificationData
}.

Record Notification := mkNotification {
  notification_title : string;
  notification_options : NotificationOptions
}.

(** [event.notification.data] *)
Definition notification_data (n : Notification) : option NotificationData :=
  opt_data (notification_options n).

(** [s || fallback] on an optional string: [undefined] and [""] are falsy. *)
Definition string_or (s : option string) (fallback : string) : string :=
  match s with
  | Some v => if String.eqb v "" then fallback else v
  | None => fallback
  end.

(** [b || false] *)
Definition bool_or_false (b : option bool) : bool :=
  match b with
  | Some v => v
  | None => false
  end.

(** The [push] listener: the notification handed to
    [registration.showNotification], none when the event has no data. *)
Definition onPush (event_data : option PushPayload) : option Notification :=
  match event_data with
  | Some data =>
      let options :=
        {| opt_body := push_body data;
           opt_icon := "/icon-192x192.png";
           opt_badge := "/badge-72x72.png";
           opt_tag := string_or (push_tag data) "default";
           opt_requireInteraction := bool_or_false (push_requireInteraction data);
           opt_data := None |} in
      Some (mkNotification (push_title data) options)
  | None => None
  end.

(** The [notificationclick] listener: the URL handed to
    [clients.openWindow], i.e. [event.notification.data?.url || '/']. *)
Definition onNotificationClick (n : Notification) : string :=
  string_or
    match notification_data n with
    | Some d => data_url d
    | None => None
    end
    "/".

(** * Specification vocabulary *)

(** [sub] occurs in [s]. *)
Definition occurs_in (sub s : string) : Prop :=
  exists pre post, s = pre ++ sub ++ post.

(** Rule 1: analytics / tracking host or path. *)
Definition AnalyticsRule (request : Request) : Prop :=
  occurs_in "google-analytics.com" (hostname (url request))
  \/ occurs_in "googletagmanager.com" (hostname (url request))
  \/ occurs_in "/analytics/" (pathname (url request)).

(** Rule 2: API path, .json path, or JSON accept header. *)
Definition ApiRule (request : Request) : Prop :=
  occurs_in "/api/" (pathname (url request))
  \/ occurs_in ".json" (pathname (url request))
  \/ exists a, headers_get "accept" (req_headers request) = Some a
               /\ occurs_in "application/json" a.

(** Rule 3: static-asset extension (in any letter case), or a font /
    CDN host. *)
Definition StaticAssetRule (request : Request) : Prop :=
  (exists ext stem, In ext static_extensions
      /\ JSString.toLowerCase (pathname (url request)) = stem ++ "." ++ ext)
  \/ occurs_in "fonts.googleapis.com" (hostname (url request))
  \/ occurs_in "fonts.gstatic.com" (hostname (url request))
  \/ occurs_in "cdnjs.cloudflare.com" (hostname (url request)).

(** The decision table: the first rule that matches decides. *)
Inductive FirstMatch (request : Request) : Strategy -> Prop :=
| fm_analytics :
    AnalyticsRule request -> FirstMatch request networkOnlyS
| fm_api :
    ~ AnalyticsRule request -> ApiRule request ->
    FirstMatch request networkFirstS
| fm_static :
    ~ AnalyticsRule request -> ~ ApiRule request -> StaticAssetRule request ->
    FirstMatch request cacheFirstS
| fm_default :
    ~ AnalyticsRule request -> ~ ApiRule request -> ~ StaticAssetRule request ->
    FirstMatch request staleWhileRevalidateS.

(** No entry of any cache differs between two storages. *)
Definition same_entries (s s' : CacheStorage) : Prop :=
  forall name k, Platform.entry s' name k = Platform.entry s name k.

Definition present {A} (o : option A) : bool :=
  match o with
  | Some _ => true
  | None => false
  end.

(** Whether a strategy answers from the cache, so that the network's
    response is not what the caller receives. *)
Definition answers_from_cache (strategy : Strategy) (s : CacheStorage)
           (k : RequestKey) : bool :=
  match strategy with
  | cacheFirstS => present (Platform.match_any s k)
  | networkFirstS => false
  | cacheOnlyS => true
  | networkOnlyS => false
  | staleWhileRevalidateS => present (Platform.entry s DYNAMIC_CACHE k)
  end.

(** The platform stores what the script puts: the request is a GET over
    http or https, and the response is neither a 206 nor varies on
    everything. *)
Definition puttable (request : Request) (r : Response) : bool :=
  Platform.accepts_request request && Platform.accepts_response r.

(** The name carries one of the two current version tags. *)
Definition is_current (name : string) : bool :=
  String.eqb name STATIC_CACHE || String.eqb name DYNAMIC_CACHE.


(** The capture timestamp of an entry: its parsed [date] header. *)
Definition capture_time (Date_parse : string -> option Z) (r : Response)
  : option Z :=
  match headers_get "date" (resp_headers r) with
  | Some d => if String.eqb d "" then None else Date_parse d
  | None => None
  end.

(** The entry was captured strictly before [now] minus seven days. *)
Definition expired (Date_parse : string -> option Z) (now : Z) (r : Response)
  : bool :=
  match capture_time Date_parse r with
  | Some t => t <? now - ONE_WEEK_MS
  | None => false
  end.

(** ** Sample data *)

Definition text_response (st : Z) (text : string) : Response :=
  mkResponse st [("content-type", "text/html")] text.

Definition dated_response (date text : string) : Response :=
  mkResponse 200 [("date", date)] text.

Definition get_request (host path : string) (headers : Headers) : Request :=
  mkRequest "GET" (mkURL "https:" host path "") headers.

Definition page_request : Request := get_request "docs.example.org" "/guide/" [].
Definition css_request : Request := get_request "docs.example.org" "/app.css" [].
Definition data_request : Request := get_request "docs.example.org" "/data.json" [].
Definition cdn_json_request : Request :=
  get_request "cdnjs.cloudflare.com" "/ajax/libs/x/package.json" [].

Definition empty_world : World := mkWorld [] [].

(** A network on which every fetch rejects. *)
Definition offline : Network := fun _ => Rejected.

(** A network that answers every fetch with the same response. *)
Definition always (r : Response) : Network := fun _ => Resolved r.

(** Both current caches exist; the dynamic one holds [r] under [k]. *)
Definition world_with_dynamic (k : RequestKey) (r : Response) : World :=
  mkWorld [(STATIC_CACHE, []); (DYNAMIC_CACHE, [(k, r)])] [].

(** Resolution of a manifest URL against the worker's origin. *)
Definition resolve_at (origin : string) (u : string) : RequestKey :=
  if JSString.startsWith u "/" then origin ++ u else u.

(** A clock for the samples: a date header is a decimal number of
    seconds since the epoch. *)
Definition digit_value (c : ascii) : option Z :=
  let n := nat_of_ascii c in
  if (Nat.leb 48 n && Nat.leb n 57)%bool then Some (Z.of_nat n - 48) else None.

Fixpoint decimal (acc : Z) (s : string) : option Z :=
  match s with
  | EmptyString => Some acc
  | String c rest =>
      match digit_value c with
      | Some d => decimal (10 * acc + d) rest
      | None => None
      end
  end.

Definition seconds_header (d : string) : option Z :=
  match d with
  | EmptyString => None
  | _ => option_map (fun t => 1000 * t) (decimal 0 d)
  end.

Definition url_payload : PushPayload :=
  mkPushPayload "Docs updated" "See what is new" (Some "news") None
                (Some "/docs/changelog").


Definition sample_origin : string := "https://docs.example.org".
Definition sample_manifest : list string := ["/"; "/app.css"].

(** What [addAll] stores for a list of URLs, if it stores anything. *)
Definition manifest_responses (net : Network) (ks : list RequestKey)
  : option (list (RequestKey * Response)) :=
  if forallb Platform.http_url ks then collect net ks else None.

(** The cache after a series of [put]s. *)
Definition store_all (c : Cache) (rs : list (RequestKey * Response)) : Cache :=
  fold_left (fun c e => Platform.cache_store c (fst e) (snd e)) rs c.

(** Two weeks after the epoch, so that the threshold of the sweep is
    604800 seconds; the dynamic cache holds entries captured one second
    before the threshold, at it, one second after it, and one entry
    without a date. *)
Definition sweep_now : Z := 2 * ONE_WEEK_MS.

Definition sweep_world : World :=
  mkWorld [(STATIC_CACHE, []);
           (DYNAMIC_CACHE,
            [("https://docs.example.org/before", dated_response "604799" "a");
             ("https://docs.example.org/at", dated_response "604800" "b");
             ("https://docs.example.org/after", dated_response "604801" "c");
             ("https://docs.example.org/undated", text_response 200 "d")])]
          [].

(** ** Proof automation *)

(** Unfolds the monadic primitives of one executor run. *)
Ltac run :=
  unfold lift_response, try_catch, bind, ret, throw, fetch,
    caches_match, caches_open, cache_match, cache_put, cache_write, cache_delete,
    caches_keys, cache_keys, caches_delete,
    emit, modify_caches, read_caches; simpl.

(** * The remaining listeners of the worker *)

(** ** Background sync *)

(** A stored analytics event; its content is never inspected. *)
Definition StoredEvent := string.

(** The script's placeholder: there is no store behind it yet. *)
Definition getStoredEvents : M (list StoredEvent) := ret [].

(** [ANALYTICS_ENDPOINT] is [self.ANALYTICS_ENDPOINT]: [None] when it is
    undefined; the empty string is falsy as well.  The request is a POST
    of the events; the oracle answers it by its URL. *)
Definition sendEventsToServer (net : Network) (ANALYTICS_ENDPOINT : option string)
           (events : list StoredEvent) : M unit :=
  match ANALYTICS_ENDPOINT with
  | Some endpoint =>
      if String.eqb endpoint "" then ret tt
      else fetch net endpoint ;; ret tt
  | None => ret tt
  end.

Definition clearStoredEvents : M unit := ret tt.

Definition doBackgroundSync (net : Network) (ANALYTICS_ENDPOINT : option string)
  : M unit :=
  try_catch
    (events <- getStoredEvents ;;
     if (0 <? length events)%nat
     then sendEventsToServer net ANALYTICS_ENDPOINT events ;;
          clearStoredEvents
     else ret tt)
    (fun error => ret tt).

(** The [sync] listener; [None]: [waitUntil] is not called. *)
Definition onSync (net : Network) (ANALYTICS_ENDPOINT : option string)
           (tag : string) : option (M unit) :=
  if String.eqb tag "background-sync"
  then Some (doBackgroundSync net ANALYTICS_ENDPOINT)
  else None.

(** The [periodicsync] listener. *)
Definition onPeriodicSync (Date_parse : string -> option Z) (now : Z)
           (tag : string) : option (M unit) :=
  if String.eqb tag "cache-cleanup"
  then Some (cleanupCaches Date_parse now)
  else None.

(** Running a listener's work, when it has any. *)
Definition run_listener (work : option (M unit)) (w : World) : Completion unit * World :=
  match work with
  | Some m => m w
  | None => (Normal tt, w)
  end.

(** The one cache a strategy may write to, if any. *)
Definition write_target (strategy : Strategy) : option string :=
  match strategy with
  | cacheFirstS => Some STATIC_CACHE
  | networkFirstS => Some DYNAMIC_CACHE
  | cacheOnlyS => None
  | networkOnlyS => None
  | staleWhileRevalidateS => Some DYNAMIC_CACHE
  end.

(** * The page scripts *)

Module Page.

(** ** The validation script *)

Record Results := mkResults {
  performanceMonitorLoaded : bool;
  serviceWorkerRegistered : bool;
  lazyLoadingActive : bool;
  cacheImplemented : bool;
  linkValidationActive : bool;
  analyticsTracking : bool
}.

(** What the script observes of the page.  The two promises
    ([getRegistrations], [caches.keys]) and the monitor are read when
    the report is made, three seconds after the call:
    [None] for a promise stands for an absent API or a promise that has
    not resolved by then, [None] for the monitor for a falsy
    [window.performanceMonitor]. *)
Record Observations := mkObservations {
  monitor_defined : bool;
  registration_count : option nat;
  lazy_image_count : nat;
  cache_count : option nat;
  pageLoadTime_positive : option bool
}.

Definition positive_count (n : option nat) : bool :=
  match n with
  | Some k => (0 <? k)%nat
  | None => false
  end.

(** The [results] object when the report is made. *)
Definition collect_results (o : Observations) : Results :=
  {| performanceMonitorLoaded := monitor_defined o;
     serviceWorkerRegistered := positive_count (registration_count o);
     lazyLoadingActive := (0 <? lazy_image_count o)%nat;
     cacheImplemented := positive_count (cache_count o);
     linkValidationActive := false;
     analyticsTracking :=
       match pageLoadTime_positive o with
       | Some b => b
       | None => false
       end |}.

(** [Object.values(results)] *)
Definition values (r : Results) : list bool :=
  [ performanceMonitorLoaded r; serviceWorkerRegistered r; lazyLoadingActive r;
    cacheImplemented r; linkValidationActive r; analyticsTracking r ].

Inductive Verdict :=
| AllImplemented
| NeedAttention.

Record Report := mkReport {
  report_results : Results;
  passedTests : nat;
  totalTests : nat;
  verdict : Verdict
}.

Definition validatePerformanceImplementation (o : Observations) : Report :=
  let results := collect_results o in
  let passedTests := length (filter (fun b : bool => b) (values results)) in
  let totalTests := length (values results) in
  {| report_results := results;
     passedTests := passedTests;
     totalTests := totalTests;
     verdict := if Nat.eqb passedTests totalTests
                then AllImplemented else NeedAttention |}.

(** ** The monitor: event log *)

Record TrackedEvent := mkTrackedEvent {
  event_name : string;
  event_data : string;
  event_timestamp : Z;
  event_url : string;
  event_userAgent : string
}.

Definition MAX_EVENTS : nat := 1000.

(** [events.splice(0, n)]: the first [n] elements are removed. *)
Definition splice0 {A} (n : nat) (l : list A) : list A := skipn n l.

(** An outgoing analytics call. *)
Inductive AnalyticsCall :=
| Gtag (name : string) (custom_parameter : string) (page_location : string)
| Post (endpoint : string) (event : TrackedEvent).

(** What [trackEvent] reads of the page: the clock, the location, the
    user agent, whether [gtag] is defined, and
    [window.ANALYTICS_ENDPOINT]. *)
Record PageEnv := mkPageEnv {
  env_now : Z;
  env_href : string;
  env_userAgent : string;
  gtag_defined : bool;
  ANALYTICS_ENDPOINT : option string
}.

Definition sendToAnalytics (env : PageEnv) (event : TrackedEvent)
  : list AnalyticsCall :=
  ((if gtag_defined env
    then [Gtag (event_name event) (event_data event) (event_url event)]
    else [])
   ++
   match ANALYTICS_ENDPOINT env with
   | Some endpoint =>
       if String.eqb endpoint "" then [] else [Post endpoint event]
   | None => []
   end)%list.

(** [trackEvent(eventName, data)]: [stored] is the parsed item
    [performance_events] of the local storage, [None] when the item is
    absent or empty; the result is the item written back and the
    analytics calls made. *)
Definition trackEvent (env : PageEnv) (eventName data : string)
           (stored : option (list TrackedEvent))
  : list TrackedEvent * list AnalyticsCall :=
  let event := mkTrackedEvent eventName data (env_now env) (env_href env)
                              (env_userAgent env) in
  let events := (match stored with Some l => l | None => [] end ++ [event])%list in
  (if (MAX_EVENTS <? length events)%nat
   then splice0 (length events - MAX_EVENTS) events
   else events,
   sendToAnalytics env event).

(** ** The monitor: the memory cache in front of [fetch] *)

Record CachedResponse := mkCachedResponse {
  cached_response : Response;
  cached_timestamp : Z
}.

(** The [Map] from cache key to cached response. *)
Definition MemoryCache := list (string * CachedResponse).

Fixpoint map_get (m : MemoryCache) (key : string) : option CachedResponse :=
  match m with
  | [] => None
  | (k, v) :: rest => if String.eqb k key then Some v else map_get rest key
  end.

Definition map_delete (m : MemoryCache) (key : string) : MemoryCache :=
  filter (fun e => negb (String.eqb (fst e) key)) m.

(** [Map.prototype.set]: an existing key keeps its place. *)
Fixpoint map_set (m : MemoryCache) (key : string) (v : CachedResponse) : MemoryCache :=
  match m with
  | [] => [(key, v)]
  | (k, v') :: rest =>
      if String.eqb k key then (k, v) :: rest
      else (k, v') :: map_set rest key v
  end.

(** The [options] argument: its method, and its JSON text. *)
Record FetchOptions := mkFetchOptions {
  options_method : option string;
  options_json : string
}.

Definition is_POST (options : FetchOptions) : bool :=
  match options_method options with
  | Some m => String.eqb m "POST"
  | None => false
  end.

Definition cacheKey (url : string) (options : FetchOptions) : string :=
  url ++ "_" ++ options_json options.

Definition cacheTimeout : Z := 5 * 60 * 1000.

(** The monitor's state as the interceptor uses it; [tracked] lists the
    calls of [trackEvent] (event name, URL) in order. *)
Record Monitor := mkMonitor {
  memoryCache : MemoryCache;
  cacheHits : nat;
  cacheMisses : nat;
  tracked : list (string * string)
}.

Inductive Lookup :=
| Hit (response : Response)
| Miss.

(** The interceptor up to its [await]: the memory cache is consulted at
    time [now]. *)
Definition fetch_before (now : Z) (url : string) (options : FetchOptions)
           (m : Monitor) : Lookup * Monitor :=
  match map_get (memoryCache m) (cacheKey url options) with
  | Some cached =>
      if now - cached_timestamp cached <? cacheTimeout
      then (Hit (cached_response cached),
            mkMonitor (memoryCache m) (S (cacheHits m)) (cacheMisses m)
                      (tracked m ++ [("cache_hit", url)])%list)
      else (Miss,
            mkMonitor (map_delete (memoryCache m) (cacheKey url options))
                      (cacheHits m) (cacheMisses m) (tracked m))
  | None => (Miss, m)
  end.

(** The interceptor after its [await]: the original [fetch] has settled
    with [outcome], and the clock reads [now]. *)
Definition fetch_after (now : Z) (url : string) (options : FetchOptions)
           (outcome : FetchResult) (m : Monitor) : Completion Response * Monitor :=
  match outcome with
  | Resolved response =>
      (Normal response,
       mkMonitor
         (if ok response && negb (is_POST options)
          then map_set (memoryCache m) (cacheKey url options)
                       (mkCachedResponse response now)
          else memoryCache m)
         (cacheHits m) (S (cacheMisses m))
         (tracked m ++ [("cache_miss", url)])%list)
  | Rejected =>
      (Throw "TypeError: Failed to fetch",
       mkMonitor (memoryCache m) (cacheHits m) (cacheMisses m)
                 (tracked m ++ [("fetch_error", url)])%list)
  end.

(** One whole call, with nothing else running in between. *)
Definition intercepted_fetch (before after : Z) (original : string -> FetchResult)
           (url : string) (options : FetchOptions) (m : Monitor)
  : Completion Response * Monitor :=
  match fetch_before before url options m with
  | (Hit response, m') => (Normal response, m')
  | (Miss, m') => fetch_after after url options (original url) m'
  end.

(** ** The monitor: link validation *)

Inductive LinkStatus :=
| StatusCode (code : Z)
| StatusUnknown
| StatusError.

Record LinkResult := mkLinkResult {
  link_url : string;
  link_status : LinkStatus;
  link_valid : bool;
  link_timestamp : Z
}.

(** One iteration of the loop: [probe] is the outcome of the HEAD
    request, [now] the clock when it settled. *)
Definition check_link (probe : string -> FetchResult) (now : Z) (href : string)
  : LinkResult :=
  match probe href with
  | Resolved response =>
      mkLinkResult href
        (if status response =? 0 then StatusUnknown else StatusCode (status response))
        (ok response || (status response =? 0))
        now
  | Rejected => mkLinkResult href StatusError false now
  end.

(** The loop over the links; [clock i] is the clock in iteration [i]. *)
Fixpoint check_links (probe : string -> FetchResult) (clock : nat -> Z)
         (i : nat) (links : list string) : list LinkResult :=
  match links with
  | [] => []
  | href :: rest => check_link probe (clock i) href :: check_links probe clock (S i) rest
  end.

(** The payload of the [broken_links_found] event. *)
Record BrokenLinks := mkBrokenLinks {
  broken_count : nat;
  broken_urls : list string
}.

(** [validateLinks]: the new [metrics.linkValidationResults], and the
    event it tracks, if any. *)
Definition validateLinks (probe : string -> FetchResult) (clock : nat -> Z)
           (links : list string) : list LinkResult * option BrokenLinks :=
  let results := check_links probe clock 0 links in
  let brokenLinks := filter (fun result => negb (link_valid result)) results in
  (results,
   if (0 <? length brokenLinks)%nat
   then Some (mkBrokenLinks (length brokenLinks) (map link_url brokenLinks))
   else None).

End Page.

(** A link is reachable: its probe resolved with a 2xx status or with
    status 0. *)
Definition link_reachable (probe : string -> FetchResult) (href : string) : bool :=
  match probe href with
  | Resolved response => ok response || (status response =? 0)
  | Rejected => false
  end.

(** ** More sample data *)

Definition analytics_request : Request :=
  get_request "www.google-analytics.com" "/collect" [].

Definition sample_options : Page.FetchOptions := Page.mkFetchOptions None "{}".

Definition empty_monitor : Page.Monitor := Page.mkMonitor [] 0 0 [].

(** * Properties *)

(** ** String primitives meet their specification *)

Lemma prefix_spec (p s : string) :
  String.prefix p s = true <-> exists post, s = p ++ post.
Proof.
  revert s; induction p as [|c p IH]; intros s.
  - split; [intros _; now exists s | intros _; now destruct s].
  - destruct s as [|c' s]; simpl.
    + split; [discriminate | intros [post H]; discriminate].
    + destruct (Ascii.ascii_dec c c') as [->|Hne].
      * rewrite IH. split; intros [post H]; exists post.
        -- now rewrite H.
        -- now inversion H.
      * split; [discriminate|].
        intros [post H]. inversion H. congruence.
Qed.

Lemma includes_cons (c : ascii) (s sub : string) :
  JSString.includes (String c s) sub =
  if String.prefix sub (String c s) then true else JSString.includes s sub.
Proof. reflexivity. Qed.

Lemma includes_prefix (s sub : string) :
  String.prefix sub s = true -> JSString.includes s sub = true.
Proof.
  intros E. destruct s.
  - change (JSString.includes "" sub)
      with (if String.prefix sub "" then true else false).
    now rewrite E.
  - rewrite includes_cons. now rewrite E.
Qed.

Lemma includes_spec (s sub : string) :
  JSString.includes s sub = true <-> occurs_in sub s.
Proof.
  unfold occurs_in. split.
  - induction s as [|c s IH].
    + destruct sub; [|intros; discriminate].
      intros _. now exists "", "".
    + rewrite includes_cons.
      destruct (String.prefix sub (String c s)) eqn:E.
      * intros _. apply prefix_spec in E. destruct E as [post E].
        now exists "", post.
      * intros H. destruct (IH H) as (pre & post & ->).
        now exists (String c pre), post.
  - intros (pre & post & ->).
    induction pre as [|c pre IH].
    + apply includes_prefix, prefix_spec. now exists post.
    + change (String c pre ++ sub ++ post) with (String c (pre ++ sub ++ post)).
      rewrite includes_cons, IH. now destruct (String.prefix _ _).
Qed.

Lemma includes_false (s sub : string) :
  JSString.includes s sub = false <-> ~ occurs_in sub s.
Proof.
  rewrite <- includes_spec. destruct (JSString.includes s sub); split; congruence.
Qed.

Lemma endsWith_cons (c : ascii) (s suffix : string) :
  JSString.endsWith (String c s) suffix =
  if String.eqb (String c s) suffix then true else JSString.endsWith s suffix.
Proof. reflexivity. Qed.

Lemma endsWith_refl (s : string) : JSString.endsWith s s = true.
Proof.
  destruct s; [reflexivity|]. rewrite endsWith_cons. now rewrite String.eqb_refl.
Qed.

Lemma endsWith_spec (s suffix : string) :
  JSString.endsWith s suffix = true <-> exists stem, s = stem ++ suffix.
Proof.
  split.
  - induction s as [|c s IH].
    + destruct suffix; [|intros; discriminate].
      intros _. now exists "".
    + rewrite endsWith_cons.
      destruct (String.eqb (String c s) suffix) eqn:E.
      * apply String.eqb_eq in E. intros _. now exists "".
      * intros H. destruct (IH H) as [stem ->]. now exists (String c stem).
  - intros [stem ->].
    induction stem as [|c stem IH].
    + apply endsWith_refl.
    + change (String c stem ++ suffix) with (String c (stem ++ suffix)).
      rewrite endsWith_cons, IH. now destruct (String.eqb _ _).
Qed.

Lemma matches_static_extension_spec (path : string) :
  matches_static_extension path = true <->
  exists ext stem, In ext static_extensions
                   /\ JSString.toLowerCase path = stem ++ "." ++ ext.
Proof.
  unfold matches_static_extension. rewrite existsb_exists. split.
  - intros (ext & Hin & H). apply endsWith_spec in H. destruct H as [stem H].
    now exists ext, stem.
  - intros (ext & stem & Hin & H). exists ext. split; [assumption|].
    apply endsWith_spec. now exists stem.
Qed.

(** ** The router's conditions are the rules of the decision table *)

Lemma is_analytics_spec (request : Request) :
  is_analytics request = true <-> AnalyticsRule request.
Proof.
  unfold is_analytics, AnalyticsRule.
  rewrite !orb_true_iff, !includes_spec. tauto.
Qed.

Lemma accepts_json_spec (request : Request) :
  accepts_json request = true <->
  exists a, headers_get "accept" (req_headers request) = Some a
            /\ occurs_in "application/json" a.
Proof.
  unfold accepts_json.
  destruct (headers_get "accept" (req_headers request)) as [a|].
  - rewrite includes_spec. split.
    + intros H. now exists a.
    + intros (a' & E & H). now inversion E; subst.
  - split; [discriminate | intros (a & E & _); discriminate].
Qed.

Lemma is_api_spec (request : Request) :
  is_api request = true <-> ApiRule request.
Proof.
  unfold is_api, ApiRule.
  rewrite !orb_true_iff, !includes_spec, accepts_json_spec. tauto.
Qed.

Lemma is_static_asset_spec (request : Request) :
  is_static_asset request = true <-> StaticAssetRule request.
Proof.
  unfold is_static_asset, StaticAssetRule.
  rewrite !orb_true_iff, !includes_spec, matches_static_extension_spec. tauto.
Qed.

Lemma getCacheStrategy_cascade (request : Request) :
  getCacheStrategy request =
  if is_analytics request then networkOnlyS
  else if is_api request then networkFirstS
  else if is_static_asset request then cacheFirstS
  else staleWhileRevalidateS.
Proof. reflexivity. Qed.

Lemma not_true_of_false (b : bool) (P : Prop) :
  (b = true <-> P) -> b = false -> ~ P.
Proof. intros H E HP. apply H in HP. congruence. Qed.

Lemma FirstMatch_functional (request : Request) (s s' : Strategy) :
  FirstMatch request s -> FirstMatch request s' -> s = s'.
Proof. intros H H'; inversion H; inversion H'; subst; tauto. Qed.

(** C3: [getCacheStrategy] is a total function of the request alone,
    and its answer is the one of the decision table in which the first
    matching rule wins: analytics, then API / JSON, then static asset,
    then the default.  A [.json] URL on a CDN host matches rules 2 and 3
    and is served network-first. *)
Theorem getCacheStrategy_first_match_wins (request : Request) :
  FirstMatch request (getCacheStrategy request)
  /\ (forall s, FirstMatch request s -> s = getCacheStrategy request)
  /\ getCacheStrategy request <> cacheOnlyS
  /\ (ApiRule cdn_json_request /\ StaticAssetRule cdn_json_request
      /\ getCacheStrategy cdn_json_request = networkFirstS).
Proof.
  assert (HF : FirstMatch request (getCacheStrategy request)).
  { rewrite getCacheStrategy_cascade.
    destruct (is_analytics request) eqn:E1.
    { apply fm_analytics. now apply is_analytics_spec. }
    pose proof (not_true_of_false _ _ (is_analytics_spec request) E1) as N1.
    destruct (is_api request) eqn:E2.
    { apply fm_api; [assumption | now apply is_api_spec]. }
    pose proof (not_true_of_false _ _ (is_api_spec request) E2) as N2.
    destruct (is_static_asset request) eqn:E3.
    { apply fm_static; [assumption | assumption | now apply is_static_asset_spec]. }
    pose proof (not_true_of_false _ _ (is_static_asset_spec request) E3) as N3.
    now apply fm_default. }
  split; [exact HF|]. split.
  { intros s Hs. exact (FirstMatch_functional _ _ _ Hs HF). }
  split.
  { inversion HF; congruence. }
  split; [|split].
  - apply is_api_spec. reflexivity.
  - apply is_static_asset_spec. reflexivity.
  - reflexivity.
Qed.

(** ** The platform store *)

Lemma cache_lookup_app (c c' : Cache) (k : RequestKey) :
  Platform.cache_lookup (c ++ c')%list k =
  match Platform.cache_lookup c k with
  | Some r => Some r
  | None => Platform.cache_lookup c' k
  end.
Proof.
  induction c as [|[k0 r0] c IH]; simpl; [reflexivity|].
  now destruct (String.eqb k0 k).
Qed.

Lemma cache_lookup_remove (c : Cache) (k k' : RequestKey) :
  Platform.cache_lookup (Platform.cache_remove c k) k' =
  if String.eqb k k' then None else Platform.cache_lookup c k'.
Proof.
  induction c as [|[k0 r0] c IH]; simpl.
  - now destruct (String.eqb k k').
  - destruct (String.eqb k0 k) eqn:E0; simpl.
    + apply String.eqb_eq in E0; subst k0. rewrite IH.
      now destruct (String.eqb k k').
    + rewrite IH. destruct (String.eqb k0 k') eqn:E1; [|reflexivity].
      apply String.eqb_eq in E1; subst k0.
      rewrite String.eqb_sym in E0. now rewrite E0.
Qed.

Lemma cache_lookup_store (c : Cache) (k k' : RequestKey) (r : Response) :
  Platform.cache_lookup (Platform.cache_store c k r) k' =
  if String.eqb k k' then Some r else Platform.cache_lookup c k'.
Proof.
  unfold Platform.cache_store. rewrite cache_lookup_app, cache_lookup_remove.
  simpl. destruct (String.eqb k k'); [reflexivity|].
  now destruct (Platform.cache_lookup c k').
Qed.

Lemma find_app (s s' : CacheStorage) (name : string) :
  Platform.find (s ++ s')%list name =
  match Platform.find s name with
  | Some c => Some c
  | None => Platform.find s' name
  end.
Proof.
  induction s as [|[n c] s IH]; simpl; [reflexivity|].
  now destruct (String.eqb n name).
Qed.

Lemma find_open_same (s : CacheStorage) (name : string) :
  Platform.find (Platform.open s name) name = Some (Platform.entries s name).
Proof.
  unfold Platform.open, Platform.entries.
  destruct (Platform.find s name) eqn:E; [assumption|].
  rewrite find_app, E. simpl. now rewrite String.eqb_refl.
Qed.

Lemma find_open_other (s : CacheStorage) (name name' : string) :
  name' <> name ->
  Platform.find (Platform.open s name) name' = Platform.find s name'.
Proof.
  intros Hne. unfold Platform.open.
  destruct (Platform.find s name); [reflexivity|].
  rewrite find_app. destruct (Platform.find s name'); [reflexivity|].
  simpl. destruct (String.eqb name name') eqn:E; [|reflexivity].
  apply String.eqb_eq in E. congruence.
Qed.

Lemma entry_open (s : CacheStorage) (name name' : string) (k : RequestKey) :
  Platform.entry (Platform.open s name) name' k = Platform.entry s name' k.
Proof.
  unfold Platform.entry, Platform.open.
  destruct (Platform.find s name) eqn:E; [reflexivity|].
  rewrite find_app. destruct (Platform.find s name'); [reflexivity|].
  simpl. now destruct (String.eqb name name').
Qed.

Lemma match_any_app (s s' : CacheStorage) (k : RequestKey) :
  Platform.match_any (s ++ s')%list k =
  match Platform.match_any s k with
  | Some r => Some r
  | None => Platform.match_any s' k
  end.
Proof.
  induction s as [|[n c] s IH]; simpl; [reflexivity|].
  now destruct (Platform.cache_lookup c k).
Qed.

Lemma match_any_open (s : CacheStorage) (name : string) (k : RequestKey) :
  Platform.match_any (Platform.open s name) k = Platform.match_any s k.
Proof.
  unfold Platform.open. destruct (Platform.find s name); [reflexivity|].
  rewrite match_any_app. simpl. now destruct (Platform.match_any s k).
Qed.

Lemma find_update (s : CacheStorage) (name name' : string) (f : Cache -> Cache) :
  Platform.find (Platform.update s name f) name' =
  if String.eqb name name' then option_map f (Platform.find s name)
  else Platform.find s name'.
Proof.
  induction s as [|[n c] s IH]; simpl.
  - now destruct (String.eqb name name').
  - destruct (String.eqb n name) eqn:E; simpl.
    + apply String.eqb_eq in E; subst n.
      now destruct (String.eqb name name').
    + rewrite IH. destruct (String.eqb name name') eqn:E'; [|reflexivity].
      apply String.eqb_eq in E'; subst name'. now rewrite E.
Qed.

(** Writing [r] under [k] into the opened cache [name] changes that
    one entry and nothing else. *)
Lemma entry_open_put (s : CacheStorage) (name name' : string)
      (k k' : RequestKey) (r : Response) :
  Platform.entry
    (Platform.update (Platform.open s name) name
       (fun c => Platform.cache_store c k r)) name' k' =
  if String.eqb name name' && String.eqb k k' then Some r
  else Platform.entry s name' k'.
Proof.
  unfold Platform.entry at 1. rewrite find_update.
  destruct (String.eqb name name') eqn:E; simpl.
  - apply String.eqb_eq in E; subst name'.
    rewrite find_open_same. simpl. rewrite cache_lookup_store.
    destruct (String.eqb k k'); [reflexivity|].
    unfold Platform.entry, Platform.entries.
    now destruct (Platform.find s name).
  - exact (entry_open s name name' k').
Qed.

Lemma match_any_update_miss (s : CacheStorage) (name : string)
      (k : RequestKey) (r : Response) :
  Platform.match_any s k = None ->
  Platform.find s name <> None ->
  Platform.match_any
    (Platform.update s name (fun c => Platform.cache_store c k r)) k = Some r.
Proof.
  induction s as [|[n c] s IH]; simpl; [congruence|].
  destruct (Platform.cache_lookup c k) eqn:L; [discriminate|].
  intros Hmiss Hfind.
  destruct (String.eqb n name) eqn:E; simpl.
  - now rewrite cache_lookup_store, String.eqb_refl.
  - rewrite L. now apply IH.
Qed.

Lemma find_open_some (s : CacheStorage) (name : string) :
  Platform.find (Platform.open s name) name <> None.
Proof. rewrite find_open_same. discriminate. Qed.

(** ** Running the executors *)

Lemma cacheFirst_hit net request w cached :
  Platform.match_any (caches w) (request_key request) = Some cached ->
  cacheFirst net request w = (Normal cached, w).
Proof. intros H. unfold cacheFirst. run. now rewrite H. Qed.

Lemma cacheFirst_miss_resolved net request w r :
  Platform.match_any (caches w) (request_key request) = None ->
  net (request_key request) = Resolved r ->
  cacheFirst net request w =
  (Normal r,
   if ok r
   then if puttable request r
        then mkWorld
               (Platform.update (Platform.open (caches w) STATIC_CACHE) STATIC_CACHE
                  (fun c => Platform.cache_store c (request_key request) r))
               (trace w ++ [EvFetch (request_key request);
                            EvPut STATIC_CACHE (request_key request) r])%list
        else mkWorld (Platform.open (caches w) STATIC_CACHE)
                     (trace w ++ [EvFetch (request_key request)])%list
   else mkWorld (caches w) (trace w ++ [EvFetch (request_key request)])%list).
Proof.
  intros H N. unfold cacheFirst, puttable. run. rewrite H, N. simpl.
  destruct (ok r); simpl; [|reflexivity].
  destruct (Platform.accepts_request request && Platform.accepts_response r);
    simpl; [|reflexivity].
  now rewrite <- app_assoc.
Qed.

Lemma cacheFirst_miss_rejected net request w :
  Platform.match_any (caches w) (request_key request) = None ->
  net (request_key request) = Rejected ->
  cacheFirst net request w =
  (Normal offline_response,
   mkWorld (caches w) (trace w ++ [EvFetch (request_key request)])%list).
Proof. intros H N. unfold cacheFirst. run. now rewrite H, N. Qed.

Lemma networkFirst_resolved net request w r :
  net (request_key request) = Resolved r ->
  networkFirst net request w =
  (Normal r,
   if ok r
   then if puttable request r
        then mkWorld
               (Platform.update (Platform.open (caches w) DYNAMIC_CACHE) DYNAMIC_CACHE
                  (fun c => Platform.cache_store c (request_key request) r))
               (trace w ++ [EvFetch (request_key request);
                            EvPut DYNAMIC_CACHE (request_key request) r])%list
        else mkWorld (Platform.open (caches w) DYNAMIC_CACHE)
                     (trace w ++ [EvFetch (request_key request)])%list
   else mkWorld (caches w) (trace w ++ [EvFetch (request_key request)])%list).
Proof.
  intros N. unfold networkFirst, puttable. run. rewrite N. simpl.
  destruct (ok r); simpl; [|reflexivity].
  destruct (Platform.accepts_request request && Platform.accepts_response r);
    simpl; [|reflexivity].
  now rewrite <- app_assoc.
Qed.

Lemma networkFirst_rejected net request w :
  net (request_key request) = Rejected ->
  networkFirst net request w =
  (Normal match Platform.match_any (caches w) (request_key request) with
          | Some cached => cached
          | None => offline_response
          end,
   mkWorld (caches w) (trace w ++ [EvFetch (request_key request)])%list).
Proof.
  intros N. unfold networkFirst. run. rewrite N. simpl.
  now destruct (Platform.match_any (caches w) (request_key request)).
Qed.

Lemma cacheOnly_run request w :
  cacheOnly request w =
  (Normal match Platform.match_any (caches w) (request_key request) with
          | Some cached => cached
          | None => not_found_response
          end, w).
Proof.
  unfold cacheOnly. run.
  now destruct (Platform.match_any (caches w) (request_key request)).
Qed.

Lemma networkOnly_run net request w :
  networkOnly net request w =
  (match net (request_key request) with
   | Resolved r => Normal r
   | Rejected => Throw "TypeError: Failed to fetch"
   end,
   mkWorld (caches w) (trace w ++ [EvFetch (request_key request)])%list).
Proof.
  unfold networkOnly. run. now destruct (net (request_key request)).
Qed.

Lemma staleWhileRevalidate_run request w :
  staleWhileRevalidate request w =
  (Normal match Platform.entry (caches w) DYNAMIC_CACHE (request_key request) with
          | Some cached => RetResponse cached
          | None => RetPromise
          end,
   mkWorld (Platform.open (caches w) DYNAMIC_CACHE)
           (trace w ++ [EvFetch (request_key request)])%list).
Proof.
  unfold staleWhileRevalidate. run. rewrite entry_open.
  now destruct (Platform.entry (caches w) DYNAMIC_CACHE (request_key request)).
Qed.

Lemma networkResponsePromise_run cache request outcome w :
  networkResponsePromise cache request outcome w =
  match outcome with
  | Resolved r =>
      (Normal (Some r),
       if ok r
       then if puttable request r
            then mkWorld
                   (Platform.update (caches w) cache
                      (fun c => Platform.cache_store c (request_key request) r))
                   (trace w ++ [EvPut cache (request_key request) r])%list
            else w
       else w)
  | Rejected => (Normal None, w)
  end.
Proof.
  unfold networkResponsePromise, puttable. destruct outcome as [r|]; [|reflexivity].
  run. destruct (ok r); [|reflexivity].
  now destruct (Platform.accepts_request request && Platform.accepts_response r).
Qed.

Lemma http_url_startsWith (k : RequestKey) :
  Platform.http_url k = true -> JSString.startsWith k "http" = true.
Proof.
  unfold Platform.http_url, JSString.startsWith. intros H.
  apply orb_true_iff in H. apply prefix_spec.
  destruct H as [H|H]; apply prefix_spec in H; destruct H as [post ->].
  - now exists (":" ++ post).
  - now exists ("s:" ++ post).
Qed.

Lemma puttable_intro (request : Request) (r : Response) :
  method request = "GET" ->
  Platform.http_url (request_key request) = true ->
  Platform.accepts_response r = true ->
  puttable request r = true.
Proof.
  intros Hget Hurl Hr. unfold puttable, Platform.accepts_request.
  now rewrite Hget, Hurl, Hr.
Qed.

Lemma staleWhileRevalidate_settled_run net request w :
  staleWhileRevalidate_settled net request w =
  let w1 := mkWorld (Platform.open (caches w) DYNAMIC_CACHE)
                    (trace w ++ [EvFetch (request_key request)])%list in
  let chain := networkResponsePromise DYNAMIC_CACHE request
                 (net (request_key request)) w1 in
  (match Platform.entry (caches w) DYNAMIC_CACHE (request_key request) with
   | Some cached => Normal (Some cached)
   | None => fst chain
   end, snd chain).
Proof.
  unfold staleWhileRevalidate_settled, bind at 1.
  rewrite staleWhileRevalidate_run. unfold bind at 1.
  cbv zeta. rewrite !networkResponsePromise_run.
  destruct (net (request_key request)) as [r|];
    destruct (Platform.entry (caches w) DYNAMIC_CACHE (request_key request));
    reflexivity.
Qed.

Lemma entry_update_store_same (s : CacheStorage) (name : string)
      (k : RequestKey) (r : Response) :
  Platform.find s name <> None ->
  Platform.entry
    (Platform.update s name (fun c => Platform.cache_store c k r)) name k = Some r.
Proof.
  intros H. unfold Platform.entry. rewrite find_update, String.eqb_refl.
  destruct (Platform.find s name); [|congruence].
  simpl. now rewrite cache_lookup_store, String.eqb_refl.
Qed.

(** C1, as stated, fails: a 2xx response is not always what the dynamic
    cache holds after the refresh.  The script does not await the [put]
    of the refresh; for a response with status 206 the platform rejects
    that [put], and the stale entry stays. *)
Lemma staleWhileRevalidate_refresh_206_keeps_stale :
  let stale := text_response 200 "stale" in
  let partial := text_response 206 "partial" in
  let w := world_with_dynamic (request_key page_request) stale in
  let settled := staleWhileRevalidate_settled (always partial) page_request w in
  getCacheStrategy page_request = staleWhileRevalidateS
  /\ always partial (request_key page_request) = Resolved partial
  /\ ok partial = true
  /\ fst settled = Normal (Some stale)
  /\ Platform.entry (caches (snd settled)) DYNAMIC_CACHE (request_key page_request)
     = Some stale.
Proof. repeat split. Qed.

(** C1, amended: a GET request over http or https routed to
    StaleWhileRevalidate whose key is in the dynamic cache is answered
    with that cached entry by the function body itself, which takes no
    network outcome and leaves every cache entry as it was; when the
    fetch later resolves with a 2xx response that the cache accepts
    (not a 206, no [Vary: *]), the continuation stores it, so that the
    dynamic cache then holds the network response under the key
    although the caller got the stale one; a 2xx response that the
    cache refuses leaves the stale entry in place. *)
Theorem staleWhileRevalidate_stale_then_fresh
        (net : Network) (request : Request) (w : World) (cached : Response) :
  method request = "GET" ->
  Platform.http_url (request_key request) = true ->
  getCacheStrategy request = staleWhileRevalidateS ->
  Platform.entry (caches w) DYNAMIC_CACHE (request_key request) = Some cached ->
  onFetch net request = Some (staleWhileRevalidate_settled net request)
  /\ (exists w1,
        staleWhileRevalidate request w = (Normal (RetResponse cached), w1)
        /\ same_entries (caches w) (caches w1)
        /\ trace w1 = (trace w ++ [EvFetch (request_key request)])%list
        /\ Platform.find (caches w1) DYNAMIC_CACHE <> None)
  /\ (forall fresh w2,
        ok fresh = true ->
        Platform.accepts_response fresh = true ->
        Platform.find (caches w2) DYNAMIC_CACHE <> None ->
        exists w3,
          networkResponsePromise DYNAMIC_CACHE request (Resolved fresh) w2
          = (Normal (Some fresh), w3)
          /\ Platform.entry (caches w3) DYNAMIC_CACHE (request_key request)
             = Some fresh)
  /\ (forall fresh,
        net (request_key request) = Resolved fresh ->
        ok fresh = true ->
        Platform.accepts_response fresh = true ->
        exists w3,
          staleWhileRevalidate_settled net request w = (Normal (Some cached), w3)
          /\ Platform.entry (caches w3) DYNAMIC_CACHE (request_key request)
             = Some fresh)
  /\ (forall fresh,
        net (request_key request) = Resolved fresh ->
        Platform.accepts_response fresh = false ->
        exists w3,
          staleWhileRevalidate_settled net request w = (Normal (Some cached), w3)
          /\ Platform.entry (caches w3) DYNAMIC_CACHE (request_key request)
             = Some cached).
Proof.
  intros Hget Hurl Hroute Hhit.
  split.
  { pose proof (http_url_startsWith _ Hurl) as Hhttp. unfold request_key in Hhttp.
    unfold onFetch. now rewrite Hget, Hhttp, Hroute. }
  split.
  { eexists. rewrite staleWhileRevalidate_run, Hhit.
    split; [reflexivity|]. simpl. split.
    - intros name k. apply entry_open.
    - split; [reflexivity | apply find_open_some]. }
  split.
  { intros fresh w2 Hok Hacc Hfind. eexists.
    rewrite networkResponsePromise_run, Hok, (puttable_intro _ _ Hget Hurl Hacc).
    split; [reflexivity|].
    simpl. now apply entry_update_store_same. }
  split.
  { intros fresh Hnet Hok Hacc. eexists.
    rewrite staleWhileRevalidate_settled_run, Hhit. cbv zeta.
    rewrite networkResponsePromise_run, Hnet, Hok,
      (puttable_intro _ _ Hget Hurl Hacc).
    split; [reflexivity|]. simpl.
    apply entry_update_store_same, find_open_some. }
  intros fresh Hnet Hacc. eexists.
  rewrite staleWhileRevalidate_settled_run, Hhit. cbv zeta.
  rewrite networkResponsePromise_run, Hnet.
  assert (Hput : puttable request fresh = false)
    by (unfold puttable; rewrite Hacc; apply andb_false_r).
  rewrite Hput. split; [reflexivity|].
  destruct (ok fresh); simpl; now rewrite entry_open.
Qed.

(** The stale entry in the dynamic cache, a fresh 200 from the network. *)
Lemma staleWhileRevalidate_stale_then_fresh_witness :
  exists w3,
    staleWhileRevalidate_settled (always (text_response 200 "fresh")) page_request
      (world_with_dynamic (request_key page_request) (text_response 200 "stale"))
    = (Normal (Some (text_response 200 "stale")), w3)
    /\ Platform.entry (caches w3) DYNAMIC_CACHE (request_key page_request)
       = Some (text_response 200 "fresh").
Proof.
  refine (proj1 (proj2 (proj2 (proj2
    (staleWhileRevalidate_stale_then_fresh
       (always (text_response 200 "fresh")) page_request
       (world_with_dynamic (request_key page_request) (text_response 200 "stale"))
       (text_response 200 "stale") _ _ _ _)))) (text_response 200 "fresh") _ _ _);
    reflexivity.
Defined.

Lemma staleWhileRevalidate_exhausted net request w :
  Platform.entry (caches w) DYNAMIC_CACHE (request_key request) = None ->
  net (request_key request) = Rejected ->
  fst (staleWhileRevalidate_settled net request w) = Normal None.
Proof.
  intros Hmiss Hnet. rewrite staleWhileRevalidate_settled_run, Hmiss. cbv zeta.
  now rewrite networkResponsePromise_run, Hnet.
Qed.

(** C2: with nothing cached and the network down, CacheFirst and
    NetworkFirst answer with the synthesized 503 response, but
    StaleWhileRevalidate does not: its [promise || new Response(...)]
    always picks the promise, whose [.catch] made it resolve with
    [null]. *)
Theorem staleWhileRevalidate_exhausted_resolves_null :
  Platform.match_any (caches empty_world) (request_key page_request) = None
  /\ offline (request_key page_request) = Rejected
  /\ onFetch offline page_request
     = Some (staleWhileRevalidate_settled offline page_request)
  /\ fst (staleWhileRevalidate_settled offline page_request empty_world)
     = Normal None
  /\ fst (cacheFirst offline css_request empty_world) = Normal offline_response
  /\ fst (networkFirst offline data_request empty_world) = Normal offline_response
  /\ status offline_response = 503
  /\ (forall net request w,
         Platform.entry (caches w) DYNAMIC_CACHE (request_key request) = None ->
         net (request_key request) = Rejected ->
         fst (staleWhileRevalidate_settled net request w) = Normal None).
Proof.
  repeat split; try reflexivity.
  exact staleWhileRevalidate_exhausted.
Qed.

(** C10: when the fetch of a NetworkFirst request resolves with a status
    outside 200-299, that response is returned as it is, the cache
    storage is left exactly as it was, and whatever is cached under the
    key is not consulted. *)
Theorem networkFirst_non_success_passes_through
        (net : Network) (request : Request) (w : World) (r : Response) :
  net (request_key request) = Resolved r ->
  ok r = false ->
  networkFirst net request w
  = (Normal r, mkWorld (caches w) (trace w ++ [EvFetch (request_key request)])%list)
  /\ (forall cached,
        Platform.match_any (caches w) (request_key request) = Some cached ->
        fst (networkFirst offline request w) = Normal cached).
Proof.
  intros Hnet Hok. split.
  - rewrite (networkFirst_resolved net request w r Hnet). now rewrite Hok.
  - intros cached Hhit.
    rewrite (networkFirst_rejected offline request w eq_refl). now rewrite Hhit.
Qed.

(** A 500 from the origin while an older 200 is cached under the key. *)
Lemma networkFirst_non_success_passes_through_witness :
  fst (networkFirst (always (text_response 500 "boom")) data_request
         (world_with_dynamic (request_key data_request) (text_response 200 "old")))
  = Normal (text_response 500 "boom")
  /\ caches (snd (networkFirst (always (text_response 500 "boom")) data_request
         (world_with_dynamic (request_key data_request) (text_response 200 "old"))))
     = caches (world_with_dynamic (request_key data_request) (text_response 200 "old")).
Proof.
  rewrite (proj1 (networkFirst_non_success_passes_through
             (always (text_response 500 "boom")) data_request
             (world_with_dynamic (request_key data_request) (text_response 200 "old"))
             (text_response 500 "boom") eq_refl eq_refl)).
  split; reflexivity.
Defined.

(** C8, as stated, fails: CacheFirst does not read the static cache but
    asks [caches.match], which searches every cache.  Here the static
    cache misses, the dynamic cache holds the key, and the request is
    answered from the dynamic cache: no fetch, nothing written to the
    static cache, although the network would have answered with a 200. *)
Lemma cacheFirst_static_miss_served_from_dynamic :
  let w := world_with_dynamic (request_key css_request)
                              (text_response 200 "from dynamic") in
  let net := always (text_response 200 "from network") in
  getCacheStrategy css_request = cacheFirstS
  /\ Platform.find (caches w) STATIC_CACHE = Some []
  /\ Platform.entry (caches w) STATIC_CACHE (request_key css_request) = None
  /\ net (request_key css_request) = Resolved (text_response 200 "from network")
  /\ cacheFirst net css_request w = (Normal (text_response 200 "from dynamic"), w).
Proof. repeat split. Qed.

(** C8, amended: CacheFirst looks the key up in all caches and returns
    the first hit without a network call; when no cache holds the key it
    fetches, and a 2xx response that the cache accepts (a GET over http
    or https, not a 206, no [Vary: *]) is written through to the static
    cache, after which the same request is answered with that response
    without a network call; a 2xx response that the cache refuses is
    returned and no entry changes; when no cache holds the key and the
    fetch fails it answers with the synthesized 503 response. *)
Theorem cacheFirst_any_cache_then_network
        (net : Network) (request : Request) (w : World) :
  (forall cached,
      Platform.match_any (caches w) (request_key request) = Some cached ->
      cacheFirst net request w = (Normal cached, w))
  /\ (Platform.match_any (caches w) (request_key request) = None ->
      forall r,
        net (request_key request) = Resolved r ->
        ok r = true ->
        puttable request r = true ->
        exists w',
          cacheFirst net request w = (Normal r, w')
          /\ trace w' = (trace w ++ [EvFetch (request_key request);
                                     EvPut STATIC_CACHE (request_key request) r])%list
          /\ Platform.entry (caches w') STATIC_CACHE (request_key request) = Some r
          /\ forall net', cacheFirst net' request w' = (Normal r, w'))
  /\ (Platform.match_any (caches w) (request_key request) = None ->
      forall r,
        net (request_key request) = Resolved r ->
        ok r = true ->
        puttable request r = false ->
        exists w',
          cacheFirst net request w = (Normal r, w')
          /\ trace w' = (trace w ++ [EvFetch (request_key request)])%list
          /\ same_entries (caches w) (caches w')
          /\ Platform.match_any (caches w') (request_key request) = None)
  /\ (Platform.match_any (caches w) (request_key request) = None ->
      net (request_key request) = Rejected ->
      fst (cacheFirst net request w) = Normal offline_response
      /\ status offline_response = 503).
Proof.
  split; [intros cached H; now apply cacheFirst_hit|].
  split; [|split].
  - intros Hmiss r Hnet Hok Hput. eexists.
    rewrite (cacheFirst_miss_resolved net request w r Hmiss Hnet), Hok, Hput.
    split; [reflexivity|]. split; [reflexivity|]. simpl. split.
    + apply entry_update_store_same, find_open_some.
    + intros net'. apply cacheFirst_hit. simpl.
      apply match_any_update_miss; [|apply find_open_some].
      now rewrite match_any_open.
  - intros Hmiss r Hnet Hok Hput. eexists.
    rewrite (cacheFirst_miss_resolved net request w r Hmiss Hnet), Hok, Hput.
    split; [reflexivity|]. split; [reflexivity|]. simpl. split.
    + intros name k. apply entry_open.
    + now rewrite match_any_open.
  - intros Hmiss Hnet.
    now rewrite (cacheFirst_miss_rejected net request w Hmiss Hnet).
Qed.

(** ** Only successful responses are persisted *)

Lemma same_entries_refl (s : CacheStorage) : same_entries s s.
Proof. now intros name k. Qed.

Lemma same_entries_open (s : CacheStorage) (name : string) :
  same_entries s (Platform.open s name).
Proof. intros n k. apply entry_open. Qed.

Lemma in_trace_snoc (e a : Event) (l : list Event) :
  In e (l ++ [a])%list -> In e l \/ e = a.
Proof.
  intros H. apply in_app_or in H. destruct H as [H|[H|[]]]; auto.
Qed.

Lemma in_trace_snoc2 (e a b : Event) (l : list Event) :
  In e (l ++ [a; b])%list -> In e l \/ e = a \/ e = b.
Proof.
  intros H. apply in_app_or in H. destruct H as [H|[H|[H|[]]]]; auto.
Qed.

(** What one executor run may do to the world: leave every entry as it
    was and log no write, or store the 2xx response the network gave for
    the key, under that key, in one cache. *)
Lemma respondWith_effect net strategy request w :
  let k := request_key request in
  let w' := snd (respondWith net strategy request w) in
  (same_entries (caches w) (caches w')
   /\ forall name k' r, In (EvPut name k' r) (trace w') ->
                        In (EvPut name k' r) (trace w))
  \/ (exists r cache,
        net k = Resolved r /\ ok r = true
        /\ caches w' = Platform.update (Platform.open (caches w) cache) cache
                         (fun c => Platform.cache_store c k r)
        /\ forall name k' r', In (EvPut name k' r') (trace w') ->
                              In (EvPut name k' r') (trace w)
                              \/ (name = cache /\ k' = k /\ r' = r)).
Proof.
  cbv zeta. destruct strategy; unfold respondWith, lift_response.
  - (* cacheFirst *)
    unfold bind.
    destruct (Platform.match_any (caches w) (request_key request)) as [c|] eqn:Hm.
    + rewrite (cacheFirst_hit net request w c Hm). simpl. left.
      split; [apply same_entries_refl | auto].
    + destruct (net (request_key request)) as [r|] eqn:Hn.
      * rewrite (cacheFirst_miss_resolved net request w r Hm Hn).
        destruct (ok r) eqn:Hok; simpl.
        -- destruct (puttable request r); simpl.
           ++ right. exists r, STATIC_CACHE. repeat split; auto.
              intros name k' r' H. apply in_trace_snoc2 in H.
              destruct H as [H|[H|H]]; [auto | discriminate | inversion H; auto].
           ++ left. split; [apply same_entries_open|].
              intros name k' r' H. apply in_trace_snoc in H.
              destruct H as [H|H]; [auto | discriminate].
        -- left. split; [apply same_entries_refl|].
           intros name k' r' H. apply in_trace_snoc in H.
           destruct H as [H|H]; [auto | discriminate].
      * rewrite (cacheFirst_miss_rejected net request w Hm Hn). simpl. left.
        split; [apply same_entries_refl|].
        intros name k' r' H. apply in_trace_snoc in H.
        destruct H as [H|H]; [auto | discriminate].
  - (* networkFirst *)
    unfold bind.
    destruct (net (request_key request)) as [r|] eqn:Hn.
    + rewrite (networkFirst_resolved net request w r Hn).
      destruct (ok r) eqn:Hok; simpl.
      * destruct (puttable request r); simpl.
        -- right. exists r, DYNAMIC_CACHE. repeat split; auto.
           intros name k' r' H. apply in_trace_snoc2 in H.
           destruct H as [H|[H|H]]; [auto | discriminate | inversion H; auto].
        -- left. split; [apply same_entries_open|].
           intros name k' r' H. apply in_trace_snoc in H.
           destruct H as [H|H]; [auto | discriminate].
      * left. split; [apply same_entries_refl|].
        intros name k' r' H. apply in_trace_snoc in H.
        destruct H as [H|H]; [auto | discriminate].
    + rewrite (networkFirst_rejected net request w Hn). simpl. left.
      split; [apply same_entries_refl|].
      intros name k' r' H. apply in_trace_snoc in H.
      destruct H as [H|H]; [auto | discriminate].
  - (* cacheOnly *)
    unfold bind. rewrite cacheOnly_run. simpl. left. split; [apply same_entries_refl | auto].
  - (* networkOnly *)
    unfold bind. rewrite networkOnly_run. left.
    assert (E : forall name k' r',
               In (EvPut name k' r') (trace w ++ [EvFetch (request_key request)])%list ->
               In (EvPut name k' r') (trace w)).
    { intros name k' r' H. apply in_trace_snoc in H.
      destruct H as [H|H]; [auto | discriminate]. }
    destruct (net (request_key request)); simpl;
      (split; [apply same_entries_refl | exact E]).
  - (* staleWhileRevalidate *)
    rewrite staleWhileRevalidate_settled_run. cbv zeta.
    rewrite networkResponsePromise_run. simpl.
    assert (E : forall name k' r',
               In (EvPut name k' r') (trace w ++ [EvFetch (request_key request)])%list ->
               In (EvPut name k' r') (trace w)).
    { intros name k' r' H. apply in_trace_snoc in H.
      destruct H as [H|H]; [auto | discriminate]. }
    destruct (net (request_key request)) as [r|] eqn:Hn; simpl.
    + destruct (ok r) eqn:Hok; simpl.
      * destruct (puttable request r); simpl.
        -- right. exists r, DYNAMIC_CACHE. repeat split; auto.
           intros name k' r' H. apply in_trace_snoc in H.
           destruct H as [H|H]; [left; now apply E | inversion H; auto].
        -- left. split; [apply same_entries_open | exact E].
      * left. split; [apply same_entries_open | exact E].
    + left. split; [apply same_entries_open | exact E].
Qed.

Lemma respondWith_non_success net strategy request w r :
  net (request_key request) = Resolved r ->
  ok r = false ->
  answers_from_cache strategy (caches w) (request_key request) = false ->
  fst (respondWith net strategy request w) = Normal (Some r).
Proof.
  intros Hn Hok Hans.
  destruct strategy; unfold respondWith, lift_response;
    simpl in Hans; try discriminate; try unfold bind.
  - destruct (Platform.match_any (caches w) (request_key request)) eqn:Hm;
      [discriminate|].
    now rewrite (cacheFirst_miss_resolved net request w r Hm Hn), Hok.
  - now rewrite (networkFirst_resolved net request w r Hn), Hok.
  - now rewrite networkOnly_run, Hn.
  - rewrite staleWhileRevalidate_settled_run. cbv zeta.
    rewrite networkResponsePromise_run, Hn.
    now destruct (Platform.entry (caches w) DYNAMIC_CACHE (request_key request)).
Qed.

(** C4, as stated, fails in its second half: a response with a
    non-success status is not always what the caller receives.
    StaleWhileRevalidate with a cached entry answers with that entry,
    and the 500 the refresh brought is dropped (it is not persisted
    either). *)
Lemma staleWhileRevalidate_drops_non_success_refresh :
  let stale := text_response 200 "stale" in
  let failure := text_response 500 "boom" in
  let w := world_with_dynamic (request_key page_request) stale in
  let result := respondWith (always failure) staleWhileRevalidateS page_request w in
  getCacheStrategy page_request = staleWhileRevalidateS
  /\ always failure (request_key page_request) = Resolved failure
  /\ ok failure = false
  /\ fst result = Normal (Some stale)
  /\ status stale = 200
  /\ status failure = 500
  /\ Platform.entry (caches (snd result)) DYNAMIC_CACHE (request_key page_request)
     = Some stale.
Proof. repeat split. Qed.

(** C4, amended: whatever the strategy and the request, an executor changes a
    cache entry only by storing a 2xx response the network gave for the
    request, and every write it logs is of such a response; when the
    network answers with a non-success status, no entry of any cache
    changes, and that response is what the caller receives unless the
    strategy answered from the cache. *)
Theorem only_successful_responses_are_cached
        (net : Network) (strategy : Strategy) (request : Request) (w : World) :
  let k := request_key request in
  let result := respondWith net strategy request w in
  (forall name k',
      Platform.entry (caches (snd result)) name k' = Platform.entry (caches w) name k'
      \/ exists r, net k = Resolved r /\ ok r = true /\ k' = k
                   /\ Platform.entry (caches (snd result)) name k' = Some r)
  /\ (forall name k' r,
         In (EvPut name k' r) (trace (snd result)) ->
         In (EvPut name k' r) (trace w) \/ (ok r = true /\ net k = Resolved r))
  /\ (forall r,
         net k = Resolved r -> ok r = false ->
         same_entries (caches w) (caches (snd result))
         /\ (answers_from_cache strategy (caches w) k = false ->
             fst result = Normal (Some r))).
Proof.
  cbv zeta.
  pose proof (respondWith_effect net strategy request w) as E. cbv zeta in E.
  split; [|split].
  - intros name k'. destruct E as [[Hs _]|(r & cache & Hn & Hok & Hc & _)].
    + left. apply Hs.
    + rewrite Hc, entry_open_put.
      destruct (String.eqb cache name && String.eqb (request_key request) k') eqn:B.
      * right. exists r. apply andb_true_iff in B. destruct B as [_ B].
        apply String.eqb_eq in B. auto.
      * now left.
  - intros name k' r H. destruct E as [[_ Ht]|(r0 & cache & Hn & Hok & _ & Ht)].
    + left. now apply Ht.
    + destruct (Ht _ _ _ H) as [H'|(_ & _ & ->)]; auto.
  - intros r Hn Hok. split.
    + destruct E as [[Hs _]|(r0 & cache & Hn' & Hok' & _)]; [exact Hs|].
      congruence.
    + now apply respondWith_non_success.
Qed.

(** ** Activate *)

Lemma filter_all {A} (p : A -> bool) (l : list A) :
  (forall x, In x l -> p x = true) -> filter p l = l.
Proof.
  induction l as [|x l IH]; simpl; intros H; [reflexivity|].
  rewrite (H x (or_introl eq_refl)). f_equal. apply IH. auto.
Qed.

Lemma filter_twice {A} (p q : A -> bool) (l : list A) :
  filter p (filter q l) = filter (fun x => q x && p x) l.
Proof.
  induction l as [|x l IH]; simpl; [reflexivity|].
  destruct (q x); simpl; [destruct (p x)|]; now rewrite IH.
Qed.

Lemma existsb_eqb_in (n : string) (l : list string) :
  In n l -> existsb (String.eqb n) l = true.
Proof.
  intros H. apply existsb_exists. exists n. now rewrite String.eqb_refl.
Qed.

(** The loop of [activate] over a list of names keeps a cache when its
    name is current or is not in the list. *)
Lemma activate_loop (names : list string) (w : World) :
  exists w',
    for_each names
      (fun cacheName =>
         if negb (String.eqb cacheName STATIC_CACHE)
            && negb (String.eqb cacheName DYNAMIC_CACHE)
         then caches_delete cacheName
         else ret tt) w = (Normal tt, w')
    /\ caches w' =
       filter (fun e => is_current (fst e)
                        || negb (existsb (String.eqb (fst e)) names))
              (caches w).
Proof.
  revert w. induction names as [|n names IH]; intros w.
  - exists w. split; [reflexivity|]. simpl.
    symmetry. apply filter_all. intros x _. apply orb_true_r.
  - simpl for_each. unfold bind at 1.
    destruct (negb (String.eqb n STATIC_CACHE) && negb (String.eqb n DYNAMIC_CACHE))
      eqn:Hold.
    + run.
      destruct (IH (mkWorld (Platform.delete (caches w) n)
                            (trace w ++ [EvDeleteCache n])%list))
        as (w' & Hrun & Hc).
      exists w'. split; [exact Hrun|]. rewrite Hc. simpl.
      unfold Platform.delete. rewrite filter_twice. apply filter_ext.
      intros [m c]. simpl.
      destruct (String.eqb m n) eqn:E; simpl; [|reflexivity].
      apply String.eqb_eq in E; subst m. unfold is_current.
      rewrite <- negb_orb in Hold. apply negb_true_iff in Hold. now rewrite Hold.
    + run. destruct (IH w) as (w' & Hrun & Hc).
      exists w'. split; [exact Hrun|]. rewrite Hc. apply filter_ext.
      intros [m c]. simpl.
      destruct (String.eqb m n) eqn:E; simpl; [|reflexivity].
      apply String.eqb_eq in E; subst m. unfold is_current.
      rewrite <- negb_orb in Hold. apply negb_false_iff in Hold. now rewrite Hold.
Qed.

Lemma activate_run (w : World) :
  exists w',
    activate w = (Normal tt, w')
    /\ caches w' = filter (fun e => is_current (fst e)) (caches w).
Proof.
  unfold activate, caches_keys, read_caches. unfold bind at 1. unfold bind at 1.
  destruct (activate_loop (Platform.keys (caches w)) w) as (w1 & Hrun & Hc).
  rewrite Hrun. eexists. split; [reflexivity|]. simpl. rewrite Hc.
  apply filter_ext_in. intros [m c] Hin. simpl.
  rewrite existsb_eqb_in; [apply orb_false_r|].
  unfold Platform.keys. apply in_map_iff. now exists (m, c).
Qed.

Lemma is_current_spec (name : string) :
  is_current name = true <-> name = STATIC_CACHE \/ name = DYNAMIC_CACHE.
Proof.
  unfold is_current. now rewrite orb_true_iff, !String.eqb_eq.
Qed.

Lemma keys_filter (p : string -> bool) (s : CacheStorage) (name : string) :
  In name (Platform.keys (filter (fun e => p (fst e)) s)) <->
  In name (Platform.keys s) /\ p name = true.
Proof.
  unfold Platform.keys. rewrite !in_map_iff. split.
  - intros ([m c] & E & H). simpl in E; subst m.
    apply filter_In in H. destruct H as [H Hp]. split; [|exact Hp].
    now exists (name, c).
  - intros [([m c] & E & H) Hp]. simpl in E; subst m.
    exists (name, c). split; [reflexivity|]. apply filter_In. now split.
Qed.

Lemma find_filter_kept (p : string -> bool) (s : CacheStorage) (name : string) :
  p name = true ->
  Platform.find (filter (fun e => p (fst e)) s) name = Platform.find s name.
Proof.
  intros Hp. induction s as [|[m c] s IH]; simpl; [reflexivity|].
  destruct (String.eqb m name) eqn:E.
  - apply String.eqb_eq in E; subst m. rewrite Hp. simpl.
    now rewrite String.eqb_refl.
  - destruct (p m); simpl; [now rewrite E | exact IH].
Qed.

(** C5: [activate] always completes; of the caches that existed before
    it, exactly those named by the static or the dynamic version tag
    exist afterwards, with their contents untouched; it creates no
    cache, and with no cache at all it completes with none. *)
Theorem activate_keeps_exactly_current (w : World) :
  exists w',
    activate w = (Normal tt, w')
    /\ (forall N, In N (Platform.keys (caches w)) ->
                  (In N (Platform.keys (caches w'))
                   <-> N = STATIC_CACHE \/ N = DYNAMIC_CACHE))
    /\ (forall N, In N (Platform.keys (caches w')) -> In N (Platform.keys (caches w)))
    /\ (forall N, N = STATIC_CACHE \/ N = DYNAMIC_CACHE ->
                  Platform.find (caches w') N = Platform.find (caches w) N)
    /\ (caches w = [] -> caches w' = []).
Proof.
  destruct (activate_run w) as (w' & Hrun & Hc).
  exists w'. split; [exact Hrun|]. rewrite Hc.
  split; [|split; [|split]].
  - intros N HN. rewrite (keys_filter is_current), is_current_spec. tauto.
  - intros N HN. now apply (keys_filter is_current) in HN.
  - intros N HN. apply (find_filter_kept is_current). now apply is_current_spec.
  - intros E. now rewrite E.
Qed.

(** ** Notifications *)

(** C9: the click listener opens [notification.data.url] when the
    notification carries one, but the push listener builds its options
    without a [data] member, so a notification it displays never carries
    the payload's URL and a click on it always opens the root. *)
Theorem notificationclick_loses_payload_url :
  (forall payload,
      option_map onNotificationClick (onPush (Some payload)) = Some "/")
  /\ push_url url_payload = Some "/docs/changelog"
  /\ option_map onNotificationClick (onPush (Some url_payload)) = Some "/"
  /\ (forall title options u,
         opt_data options = Some (mkNotificationData (Some u)) ->
         u <> "" ->
         onNotificationClick (mkNotification title options) = u).
Proof.
  repeat split.
  intros title options u Hdata Hu.
  unfold onNotificationClick, notification_data. simpl. rewrite Hdata. simpl.
  destruct (String.eqb u "") eqn:E; [|reflexivity].
  apply String.eqb_eq in E. contradiction.
Qed.

(** ** Install *)

Lemma update_same (s : CacheStorage) (name : string) :
  Platform.update s name (fun c => c) = s.
Proof.
  induction s as [|[n c] s IH]; simpl; [reflexivity|].
  destruct (String.eqb n name); [reflexivity | now rewrite IH].
Qed.

Lemma update_twice (s : CacheStorage) (name : string) (f g : Cache -> Cache) :
  Platform.update (Platform.update s name f) name g =
  Platform.update s name (fun c => g (f c)).
Proof.
  induction s as [|[n c] s IH]; simpl; [reflexivity|].
  destruct (String.eqb n name) eqn:E; simpl; rewrite E; [reflexivity|].
  now rewrite IH.
Qed.

Lemma entries_update (s : CacheStorage) (name : string) (f : Cache -> Cache) :
  Platform.find s name <> None ->
  Platform.entries (Platform.update s name f) name = f (Platform.entries s name).
Proof.
  intros H. unfold Platform.entries. rewrite find_update, String.eqb_refl.
  destruct (Platform.find s name); [reflexivity | congruence].
Qed.

Lemma entries_open (s : CacheStorage) (name : string) :
  Platform.entries (Platform.open s name) name = Platform.entries s name.
Proof.
  unfold Platform.entries at 1. now rewrite find_open_same.
Qed.

Lemma entry_entries (s : CacheStorage) (name : string) (k : RequestKey) :
  Platform.entry s name k = Platform.cache_lookup (Platform.entries s name) k.
Proof.
  unfold Platform.entry, Platform.entries. now destruct (Platform.find s name).
Qed.

Lemma for_each_fetch_events (ks : list RequestKey) (w : World) :
  for_each ks (fun k => emit (EvFetch k)) w =
  (Normal tt, mkWorld (caches w) (trace w ++ map EvFetch ks)%list).
Proof.
  revert w. induction ks as [|k ks IH]; intros w; simpl.
  - unfold ret. rewrite app_nil_r. now destruct w.
  - unfold bind, emit. rewrite IH. simpl. now rewrite <- app_assoc.
Qed.

Lemma for_each_put (cache : string) (rs : list (RequestKey * Response)) (w : World) :
  for_each rs (fun e => cache_write cache (fst e) (snd e)) w =
  (Normal tt,
   mkWorld (Platform.update (caches w) cache (fun c => store_all c rs))
           (trace w ++ map (fun e => EvPut cache (fst e) (snd e)) rs)%list).
Proof.
  revert w. induction rs as [|[k r] rs IH]; intros w; simpl.
  - unfold ret. rewrite app_nil_r.
    change (fun c : Cache => store_all c []) with (fun c : Cache => c).
    rewrite update_same. now destruct w.
  - unfold bind at 1. run. rewrite IH. simpl.
    rewrite update_twice, <- app_assoc. reflexivity.
Qed.

Lemma install_run net resolve manifest w :
  install net resolve manifest w =
  (Normal tt,
   if forallb Platform.http_url (map resolve manifest)
   then match collect net (map resolve manifest) with
        | Some rs =>
            mkWorld (Platform.update (Platform.open (caches w) STATIC_CACHE)
                       STATIC_CACHE (fun c => store_all c rs))
                    (((trace w ++ map EvFetch (map resolve manifest))
                      ++ map (fun e => EvPut STATIC_CACHE (fst e) (snd e)) rs)
                     ++ [EvSkipWaiting])%list
        | None =>
            mkWorld (Platform.open (caches w) STATIC_CACHE)
                    (trace w ++ map EvFetch (map resolve manifest))%list
        end
   else mkWorld (Platform.open (caches w) STATIC_CACHE) (trace w)).
Proof.
  unfold install, addAll, try_catch, caches_open.
  unfold bind, modify_caches, ret. simpl.
  destruct (forallb Platform.http_url (map resolve manifest)); [|reflexivity].
  rewrite for_each_fetch_events. simpl.
  destruct (collect net (map resolve manifest)) as [rs|]; [|reflexivity].
  rewrite for_each_put. reflexivity.
Qed.

Lemma install_caches net resolve manifest w :
  caches (snd (install net resolve manifest w)) =
  match manifest_responses net (map resolve manifest) with
  | Some rs =>
      Platform.update (Platform.open (caches w) STATIC_CACHE) STATIC_CACHE
                      (fun c => store_all c rs)
  | None => Platform.open (caches w) STATIC_CACHE
  end.
Proof.
  rewrite install_run. unfold manifest_responses. simpl.
  destruct (forallb Platform.http_url (map resolve manifest)); [|reflexivity].
  now destruct (collect net (map resolve manifest)).
Qed.





Lemma cache_lookup_in (c : Cache) (k : RequestKey) (r : Response) :
  NoDup (map fst c) -> In (k, r) c -> Platform.cache_lookup c k = Some r.
Proof.
  induction c as [|[k0 r0] c IH]; simpl; [contradiction|].
  intros Hnd [E|Hin].
  - inversion E; subst. now rewrite String.eqb_refl.
  - inversion Hnd as [|? ? Hk Hnd']; subst.
    destruct (String.eqb k0 k) eqn:E; [|now apply IH].
    apply String.eqb_eq in E; subst k0. exfalso. apply Hk.
    apply in_map_iff. now exists (k, r).
Qed.






(** The worker's own manifest, all eight assets reachable. *)
Example onInstall_warms_all_static_assets :
  length (Platform.entries
            (caches (snd (onInstall (always (text_response 200 "asset"))
                                    (resolve_at sample_origin) empty_world)))
            STATIC_CACHE) = length STATIC_ASSETS.
Proof. reflexivity. Qed.

(** ** The expiry sweep *)

(** One iteration of the sweep on a key the cache holds. *)
Lemma sweep_step Date_parse now (k : RequestKey) (r : Response) (w : World) :
  Platform.entry (caches w) DYNAMIC_CACHE k = Some r ->
  (found <- cache_match DYNAMIC_CACHE k ;;
   match found with
   | None => throw "TypeError: Cannot read properties of undefined"
   | Some response =>
       match headers_get "date" (resp_headers response) with
       | Some dateHeader =>
           if String.eqb dateHeader "" then ret tt
           else match Date_parse dateHeader with
                | Some responseDate =>
                    if responseDate <? now - ONE_WEEK_MS
                    then cache_delete DYNAMIC_CACHE k
                    else ret tt
                | None => ret tt
                end
       | None => ret tt
       end
   end) w =
  (Normal tt,
   if expired Date_parse now r
   then mkWorld (Platform.update (caches w) DYNAMIC_CACHE
                   (fun c => Platform.cache_remove c k))
                (trace w ++ [EvDelete DYNAMIC_CACHE k])%list
   else w).
Proof.
  intros H. unfold bind at 1, cache_match, read_caches. rewrite H.
  unfold expired, capture_time.
  destruct (headers_get "date" (resp_headers r)) as [d|]; [|reflexivity].
  destruct (String.eqb d ""); [reflexivity|].
  destruct (Date_parse d) as [t|]; [|reflexivity].
  destruct (t <? now - ONE_WEEK_MS); reflexivity.
Qed.

Lemma in_keys_lookup (c : Cache) (k : RequestKey) :
  In k (map fst c) -> exists r, Platform.cache_lookup c k = Some r /\ In (k, r) c.
Proof.
  induction c as [|[k0 r0] c IH]; simpl; [contradiction|].
  intros H. destruct (String.eqb k0 k) eqn:E.
  - apply String.eqb_eq in E; subst k0. exists r0. auto.
  - destruct H as [H|H]; [subst; now rewrite String.eqb_refl in E|].
    destruct (IH H) as (r & L & Hin). exists r. auto.
Qed.

Lemma NoDup_keys_filter (p : RequestKey * Response -> bool) (c : Cache) :
  NoDup (map fst c) -> NoDup (map fst (filter p c)).
Proof.
  induction c as [|e c IH]; simpl; intros H; [constructor|].
  inversion H as [|? ? Hk Hnd]; subst.
  destruct (p e); simpl; [|now apply IH].
  constructor; [|now apply IH].
  intros Hin. apply Hk. apply in_map_iff in Hin.
  destruct Hin as (e' & E & Hin). apply filter_In in Hin.
  apply in_map_iff. exists e'. tauto.
Qed.

Lemma in_keys_remove (c : Cache) (k k' : RequestKey) :
  k' <> k -> In k' (map fst c) -> In k' (map fst (Platform.cache_remove c k)).
Proof.
  intros Hne Hin. apply in_map_iff in Hin. destruct Hin as ([k0 r0] & E & Hin).
  simpl in E; subst k0. apply in_map_iff. exists (k', r0). split; [reflexivity|].
  apply filter_In. split; [assumption|]. simpl.
  apply negb_true_iff. now apply String.eqb_neq.
Qed.

Lemma NoDup_snoc {A} (l : list A) (x : A) :
  NoDup l -> ~ In x l -> NoDup (l ++ [x])%list.
Proof.
  induction l as [|y l IH]; simpl; intros Hnd Hx.
  - constructor; [auto | constructor].
  - inversion Hnd as [|? ? Hy Hnd']; subst. constructor.
    + rewrite in_app_iff. simpl. intros [H|[H|[]]]; [auto | subst; auto].
    + apply IH; auto.
Qed.

(** One entry per key is an invariant of a cache: [put] and [delete]
    keep it. *)
Lemma cache_remove_NoDup (c : Cache) (k : RequestKey) :
  NoDup (map fst c) -> NoDup (map fst (Platform.cache_remove c k)).
Proof. apply NoDup_keys_filter. Qed.

Lemma cache_store_NoDup (c : Cache) (k : RequestKey) (r : Response) :
  NoDup (map fst c) -> NoDup (map fst (Platform.cache_store c k r)).
Proof.
  intros H. unfold Platform.cache_store. rewrite map_app. simpl.
  apply NoDup_snoc.
  - now apply cache_remove_NoDup.
  - intros Hin. apply in_map_iff in Hin. destruct Hin as ([k' r'] & E & Hin).
    simpl in E; subst k'. apply filter_In in Hin. destruct Hin as [_ Hin].
    simpl in Hin. now rewrite String.eqb_refl in Hin.
Qed.

(** The loop of the sweep over a duplicate-free list of keys held by the
    dynamic cache removes the expired entries under these keys and
    touches nothing else. *)
Lemma sweep_loop Date_parse now (ks : list RequestKey) (w : World) :
  Platform.find (caches w) DYNAMIC_CACHE <> None ->
  NoDup ks ->
  NoDup (map fst (Platform.entries (caches w) DYNAMIC_CACHE)) ->
  (forall k, In k ks -> In k (map fst (Platform.entries (caches w) DYNAMIC_CACHE))) ->
  exists w',
    for_each ks
      (fun request =>
         found <- cache_match DYNAMIC_CACHE request ;;
         match found with
         | None => throw "TypeError: Cannot read properties of undefined"
         | Some response =>
             match headers_get "date" (resp_headers response) with
             | Some dateHeader =>
                 if String.eqb dateHeader "" then ret tt
                 else match Date_parse dateHeader with
                      | Some responseDate =>
                          if responseDate <? now - ONE_WEEK_MS
                          then cache_delete DYNAMIC_CACHE request
                          else ret tt
                      | None => ret tt
                      end
             | None => ret tt
             end
         end) w = (Normal tt, w')
    /\ Platform.find (caches w') DYNAMIC_CACHE <> None
    /\ (forall name, name <> DYNAMIC_CACHE ->
                     Platform.find (caches w') name = Platform.find (caches w) name)
    /\ Platform.entries (caches w') DYNAMIC_CACHE =
       filter (fun e => negb (existsb (String.eqb (fst e)) ks
                              && expired Date_parse now (snd e)))
              (Platform.entries (caches w) DYNAMIC_CACHE).
Proof.
  revert w. induction ks as [|k ks IH]; intros w Hfind Hks Hnd Hheld.
  - exists w. split; [reflexivity|]. split; [assumption|]. split; [reflexivity|].
    symmetry. now apply filter_all.
  - inversion Hks as [|? ? Hk Hks']; subst.
    destruct (in_keys_lookup _ k (Hheld k (or_introl eq_refl))) as (r & Hl & Hin).
    assert (He : Platform.entry (caches w) DYNAMIC_CACHE k = Some r)
      by (now rewrite entry_entries).
    simpl for_each. unfold bind at 1.
    rewrite (sweep_step Date_parse now k r w He).
    assert (Hsame : forall e : string * Response,
               In e (Platform.entries (caches w) DYNAMIC_CACHE) ->
                              fst e = k -> snd e = r).
    { intros [k' r'] Hin' E. simpl in E; subst k'. simpl.
      pose proof (cache_lookup_in _ _ _ Hnd Hin'). congruence. }
    destruct (expired Date_parse now r) eqn:Hexp.
    + destruct (IH (mkWorld (Platform.update (caches w) DYNAMIC_CACHE
                               (fun c => Platform.cache_remove c k))
                            (trace w ++ [EvDelete DYNAMIC_CACHE k])%list))
        as (w' & Hrun & Hf & Ho & Hc); simpl.
      * rewrite find_update, String.eqb_refl.
        destruct (Platform.find (caches w) DYNAMIC_CACHE); [discriminate | congruence].
      * assumption.
      * rewrite entries_update by assumption. now apply NoDup_keys_filter.
      * intros k' Hk'. rewrite entries_update by assumption.
        apply in_keys_remove; [intros ->; contradiction | apply Hheld; now right].
      * exists w'. split; [exact Hrun|]. split; [exact Hf|]. split.
        -- intros name Hne. rewrite (Ho name Hne). simpl. rewrite find_update.
           destruct (String.eqb DYNAMIC_CACHE name) eqn:E; [|reflexivity].
           apply String.eqb_eq in E. congruence.
        -- rewrite Hc. simpl. rewrite entries_update by assumption.
           unfold Platform.cache_remove. rewrite filter_twice.
           apply filter_ext_in. intros e Hin'. simpl.
           destruct (String.eqb (fst e) k) eqn:E; simpl; [|reflexivity].
           apply String.eqb_eq in E. now rewrite (Hsame e Hin' E), Hexp.
    + destruct (IH w) as (w' & Hrun & Hf & Ho & Hc); auto.
      { intros k' Hk'. apply Hheld. now right. }
      exists w'. split; [exact Hrun|]. split; [exact Hf|]. split; [exact Ho|].
      rewrite Hc. apply filter_ext_in. intros e Hin'. simpl.
      destruct (String.eqb (fst e) k) eqn:E; simpl; [|reflexivity].
      apply String.eqb_eq in E. rewrite (Hsame e Hin' E), Hexp.
      now rewrite andb_false_r.
Qed.

Lemma cache_lookup_filter (p : Response -> bool) (c : Cache) (k : RequestKey) :
  NoDup (map fst c) ->
  Platform.cache_lookup (filter (fun e => p (snd e)) c) k =
  match Platform.cache_lookup c k with
  | Some r => if p r then Some r else None
  | None => None
  end.
Proof.
  induction c as [|[k0 r0] c IH]; simpl; intros Hnd; [reflexivity|].
  inversion Hnd as [|? ? Hk Hnd']; subst.
  destruct (String.eqb k0 k) eqn:E.
  - apply String.eqb_eq in E; subst k0.
    destruct (p r0); simpl; [now rewrite String.eqb_refl|].
    rewrite (IH Hnd').
    destruct (Platform.cache_lookup c k) as [r|] eqn:L; [|reflexivity].
    exfalso. apply Hk.
    assert (Hin : exists r', In (k, r') c).
    { clear -L. induction c as [|[k1 r1] c IH]; simpl in L; [discriminate|].
      destruct (String.eqb k1 k) eqn:E.
      - apply String.eqb_eq in E; subst. exists r1. now left.
      - destruct (IH L) as [r' H]. exists r'. now right. }
    destruct Hin as [r' Hin]. apply in_map_iff. now exists (k, r').
  - destruct (p r0); simpl; [rewrite E|]; now apply IH.
Qed.

Lemma expired_spec Date_parse now (r : Response) :
  expired Date_parse now r = true <->
  exists t, capture_time Date_parse r = Some t /\ t < now - 7 * 24 * 60 * 60 * 1000.
Proof.
  unfold expired. destruct (capture_time Date_parse r) as [t|].
  - rewrite Z.ltb_lt. change ONE_WEEK_MS with (7 * 24 * 60 * 60 * 1000). split.
    + intros H. now exists t.
    + intros (t' & E & H). now inversion E; subst.
  - split; [discriminate | intros (t & E & _); discriminate].
Qed.

(** C7: on a dynamic cache with one entry per key, one run of
    [cleanupCaches] completes and leaves in the dynamic cache exactly the
    entries that are not expired, in their order and unchanged: an entry
    is gone afterwards if and only if its capture timestamp is strictly
    less than [now] minus seven days; an entry captured exactly at the
    threshold, later, or without a readable timestamp stays.  No other
    cache is touched. *)
Theorem cleanupCaches_removes_exactly_expired
        (Date_parse : string -> option Z) (now : Z) (w : World) :
  NoDup (map fst (Platform.entries (caches w) DYNAMIC_CACHE)) ->
  exists w',
    cleanupCaches Date_parse now w = (Normal tt, w')
    /\ Platform.entries (caches w') DYNAMIC_CACHE =
       filter (fun e => negb (expired Date_parse now (snd e)))
              (Platform.entries (caches w) DYNAMIC_CACHE)
    /\ (forall k r,
           Platform.entry (caches w) DYNAMIC_CACHE k = Some r ->
           (Platform.entry (caches w') DYNAMIC_CACHE k = None
            <-> exists t, capture_time Date_parse r = Some t
                          /\ t < now - 7 * 24 * 60 * 60 * 1000)
           /\ (Platform.entry (caches w') DYNAMIC_CACHE k = None
               \/ Platform.entry (caches w') DYNAMIC_CACHE k = Some r))
    /\ (forall k, Platform.entry (caches w) DYNAMIC_CACHE k = None ->
                  Platform.entry (caches w') DYNAMIC_CACHE k = None)
    /\ (forall name, name <> DYNAMIC_CACHE ->
                     Platform.find (caches w') name = Platform.find (caches w) name).
Proof.
  intros Hnd.
  unfold cleanupCaches, caches_keys, caches_open, cache_keys, read_caches,
    modify_caches.
  unfold bind at 1. unfold bind at 1. unfold bind at 1. unfold bind at 1.
  unfold ret at 1. cbv zeta. simpl caches.
  set (w0 := mkWorld (Platform.open (caches w) DYNAMIC_CACHE) (trace w)).
  assert (He0 : Platform.entries (caches w0) DYNAMIC_CACHE
                = Platform.entries (caches w) DYNAMIC_CACHE)
    by apply entries_open.
  destruct (sweep_loop Date_parse now
              (map fst (Platform.entries (caches w0) DYNAMIC_CACHE)) w0)
    as (w' & Hrun & _ & Ho & Hc).
  { apply find_open_some. }
  { now rewrite He0. }
  { now rewrite He0. }
  { auto. }
  assert (Hc' : Platform.entries (caches w') DYNAMIC_CACHE =
                filter (fun e => negb (expired Date_parse now (snd e)))
                       (Platform.entries (caches w) DYNAMIC_CACHE)).
  { rewrite Hc, He0. apply filter_ext_in. intros e Hin.
    rewrite existsb_eqb_in; [reflexivity|]. now apply in_map. }
  assert (Hentry : forall k,
             Platform.entry (caches w') DYNAMIC_CACHE k =
             match Platform.entry (caches w) DYNAMIC_CACHE k with
             | Some r => if negb (expired Date_parse now r) then Some r else None
             | None => None
             end).
  { intros k. rewrite !entry_entries, Hc'.
    apply (cache_lookup_filter (fun r => negb (expired Date_parse now r)) _ k Hnd). }
  exists w'. split; [exact Hrun|]. split; [exact Hc'|].
  split; [|split].
  - intros k r Hk. rewrite <- expired_spec, Hentry, Hk.
    destruct (expired Date_parse now r); simpl; split; auto;
      split; congruence.
  - intros k Hk. now rewrite Hentry, Hk.
  - intros name Hne. rewrite (Ho name Hne). unfold w0. simpl caches.
    now apply find_open_other.
Qed.

(** Entries one second before the threshold, at it and one second after
    it, and an undated one: only the first is removed. *)
Lemma cleanupCaches_removes_exactly_expired_witness :
  exists w',
    cleanupCaches seconds_header sweep_now sweep_world = (Normal tt, w')
    /\ map fst (Platform.entries (caches w') DYNAMIC_CACHE) =
       ["https://docs.example.org/at";
        "https://docs.example.org/after";
        "https://docs.example.org/undated"].
Proof.
  assert (Hnd : NoDup (map fst (Platform.entries (caches sweep_world) DYNAMIC_CACHE))).
  { repeat constructor; simpl; intuition discriminate. }
  destruct (cleanupCaches_removes_exactly_expired seconds_header sweep_now
              sweep_world Hnd) as (w' & Hrun & Hc & _).
  exists w'. split; [exact Hrun|]. rewrite Hc. reflexivity.
Defined.

(** * Further properties of the worker *)

(** ** Requests that are passed through *)

(** The fetch listener leaves a request alone exactly when it is not a
    GET or its URL does not start with [http]. *)
Lemma onFetch_intercepts_only_http_GET (net : Network) (request : Request) :
  onFetch net request = None <->
  (method request <> "GET"
   \/ JSString.startsWith (href (url request)) "http" = false).
Proof.
  unfold onFetch.
  destruct (String.eqb (method request) "GET") eqn:Hm; simpl.
  - apply String.eqb_eq in Hm.
    destruct (JSString.startsWith (href (url request)) "http"); simpl; split.
    + discriminate.
    + intros [H|H]; [contradiction | discriminate].
    + auto.
    + reflexivity.
  - apply String.eqb_neq in Hm. split; auto.
Qed.

(** X1: an analytics or tracking request goes to the network and nowhere
    else: the caller gets the network's response, or its failure, and
    the cache storage is neither read for the answer nor changed. *)
Theorem analytics_requests_bypass_the_caches
        (net : Network) (request : Request) (w : World) :
  method request = "GET" ->
  JSString.startsWith (href (url request)) "http" = true ->
  AnalyticsRule request ->
  exists respond,
    onFetch net request = Some respond
    /\ respond w =
       (match net (request_key request) with
        | Resolved r => Normal (Some r)
        | Rejected => Throw "TypeError: Failed to fetch"
        end,
        mkWorld (caches w) (trace w ++ [EvFetch (request_key request)])%list).
Proof.
  intros Hget Hhttp Hrule. apply is_analytics_spec in Hrule.
  eexists. split.
  - unfold onFetch. rewrite Hget, Hhttp. simpl.
    rewrite getCacheStrategy_cascade, Hrule. reflexivity.
  - unfold respondWith, lift_response, bind. rewrite networkOnly_run.
    now destruct (net (request_key request)).
Qed.

(** A hit to the analytics host while a response for the same URL sits in
    the dynamic cache: the network's 204 is returned, the cache stays. *)
Lemma analytics_requests_bypass_the_caches_witness :
  exists respond,
    onFetch (always (text_response 204 "")) analytics_request = Some respond
    /\ respond (world_with_dynamic (request_key analytics_request)
                                   (text_response 200 "old"))
       = (Normal (Some (text_response 204 "")),
          mkWorld [(STATIC_CACHE, []);
                   (DYNAMIC_CACHE, [(request_key analytics_request,
                                     text_response 200 "old")])]
                  [EvFetch (request_key analytics_request)]).
Proof.
  apply (analytics_requests_bypass_the_caches
           (always (text_response 204 "")) analytics_request
           (world_with_dynamic (request_key analytics_request)
                               (text_response 200 "old"))).
  - reflexivity.
  - reflexivity.
  - apply is_analytics_spec. reflexivity.
Defined.

(** ** NetworkFirst: write-through and fallback *)

(** X2: a 2xx response that the cache accepts, fetched by NetworkFirst
    for a key that no cache held, is what the same request gets back
    when the network is down afterwards. *)
Theorem networkFirst_replays_offline
        (net : Network) (request : Request) (w : World) (r : Response) :
  Platform.match_any (caches w) (request_key request) = None ->
  net (request_key request) = Resolved r ->
  ok r = true ->
  puttable request r = true ->
  exists w',
    networkFirst net request w = (Normal r, w')
    /\ Platform.entry (caches w') DYNAMIC_CACHE (request_key request) = Some r
    /\ forall net',
         net' (request_key request) = Rejected ->
         fst (networkFirst net' request w') = Normal r.
Proof.
  intros Hmiss Hnet Hok Hput. eexists.
  rewrite (networkFirst_resolved net request w r Hnet), Hok, Hput.
  split; [reflexivity|]. simpl. split.
  - apply entry_update_store_same, find_open_some.
  - intros net' Hdown.
    rewrite (networkFirst_rejected net' request _ Hdown). simpl.
    rewrite match_any_update_miss; [reflexivity | | apply find_open_some].
    now rewrite match_any_open.
Qed.

Lemma networkFirst_replays_offline_witness :
  exists w',
    networkFirst (always (text_response 200 "{}")) data_request empty_world
    = (Normal (text_response 200 "{}"), w')
    /\ fst (networkFirst offline data_request w') = Normal (text_response 200 "{}").
Proof.
  destruct (networkFirst_replays_offline (always (text_response 200 "{}"))
              data_request empty_world (text_response 200 "{}")
              eq_refl eq_refl eq_refl eq_refl) as (w' & Hrun & _ & Hreplay).
  exists w'. split; [exact Hrun|]. now apply Hreplay.
Defined.

Lemma open_keeps_head (n name : string) (c : Cache) (rest : CacheStorage) :
  exists tail, Platform.open ((n, c) :: rest) name = (n, c) :: tail.
Proof.
  unfold Platform.open.
  destruct (Platform.find ((n, c) :: rest) name).
  - now exists rest.
  - now exists (rest ++ [(name, [])])%list.
Qed.

Lemma match_any_update_behind (n name : string) (c : Cache) (tail : CacheStorage)
      (f : Cache -> Cache) (k : RequestKey) (old : Response) :
  n <> name ->
  Platform.cache_lookup c k = Some old ->
  Platform.match_any (Platform.update ((n, c) :: tail) name f) k = Some old.
Proof.
  intros Hne Hold. simpl.
  destruct (String.eqb n name) eqn:E.
  - apply String.eqb_eq in E. contradiction.
  - simpl. now rewrite Hold.
Qed.

(** X3: the fallback of NetworkFirst asks all caches, oldest first: when
    the cache created first is not the dynamic one and holds the key,
    the offline answer is that older entry, also after NetworkFirst has
    itself fetched a newer 2xx response and, when the cache accepts it,
    written it to the dynamic cache. *)
Theorem networkFirst_fallback_prefers_the_oldest_cache
        (net : Network) (request : Request) (w : World)
        (name : string) (c : Cache) (rest : CacheStorage) (old r : Response) :
  caches w = (name, c) :: rest ->
  name <> DYNAMIC_CACHE ->
  Platform.cache_lookup c (request_key request) = Some old ->
  net (request_key request) = Resolved r ->
  ok r = true ->
  exists w',
    networkFirst net request w = (Normal r, w')
    /\ (puttable request r = true ->
        Platform.entry (caches w') DYNAMIC_CACHE (request_key request) = Some r)
    /\ forall net',
         net' (request_key request) = Rejected ->
         fst (networkFirst net' request w') = Normal old.
Proof.
  intros Hw Hname Hold Hnet Hok. eexists.
  rewrite (networkFirst_resolved net request w r Hnet), Hok.
  split; [reflexivity|].
  destruct (open_keeps_head name DYNAMIC_CACHE c rest) as [tail Htail].
  destruct (puttable request r); simpl; split.
  - intros _. apply entry_update_store_same, find_open_some.
  - intros net' Hdown.
    rewrite (networkFirst_rejected net' request _ Hdown). simpl.
    rewrite Hw, Htail.
    now rewrite (match_any_update_behind name DYNAMIC_CACHE c tail _ _ old Hname Hold).
  - discriminate.
  - intros net' Hdown.
    rewrite (networkFirst_rejected net' request _ Hdown). simpl.
    rewrite Hw, Htail. simpl. now rewrite Hold.
Qed.

(** The static cache holds an old copy of the data file. *)
Lemma networkFirst_fallback_prefers_the_oldest_cache_witness :
  exists w',
    networkFirst (always (text_response 200 "new")) data_request
      (mkWorld [(STATIC_CACHE, [(request_key data_request, text_response 200 "old")])] [])
    = (Normal (text_response 200 "new"), w')
    /\ Platform.entry (caches w') DYNAMIC_CACHE (request_key data_request)
       = Some (text_response 200 "new")
    /\ fst (networkFirst offline data_request w') = Normal (text_response 200 "old").
Proof.
  destruct (networkFirst_fallback_prefers_the_oldest_cache
              (always (text_response 200 "new")) data_request
              (mkWorld [(STATIC_CACHE,
                         [(request_key data_request, text_response 200 "old")])] [])
              STATIC_CACHE
              [(request_key data_request, text_response 200 "old")] []
              (text_response 200 "old") (text_response 200 "new")
              eq_refl ltac:(discriminate) eq_refl eq_refl eq_refl)
    as (w' & Hrun & Hentry & Hreplay).
  exists w'. split; [exact Hrun|]. split; [now apply Hentry|]. now apply Hreplay.
Defined.

(** ** StaleWhileRevalidate: first visit and failed refresh *)

(** X4: with nothing in the dynamic cache the caller waits for the
    network; a 2xx response that the cache accepts is returned and
    stored, and from then on the function body answers the same request
    from the cache. *)
Theorem staleWhileRevalidate_first_visit_warms_the_cache
        (net : Network) (request : Request) (w : World) (r : Response) :
  Platform.entry (caches w) DYNAMIC_CACHE (request_key request) = None ->
  net (request_key request) = Resolved r ->
  ok r = true ->
  puttable request r = true ->
  exists w',
    staleWhileRevalidate_settled net request w = (Normal (Some r), w')
    /\ Platform.entry (caches w') DYNAMIC_CACHE (request_key request) = Some r
    /\ fst (staleWhileRevalidate request w') = Normal (RetResponse r).
Proof.
  intros Hmiss Hnet Hok Hput. eexists.
  rewrite staleWhileRevalidate_settled_run, Hmiss. cbv zeta.
  rewrite networkResponsePromise_run, Hnet, Hok, Hput.
  split; [reflexivity|]. simpl.
  assert (E : Platform.entry
                (Platform.update (Platform.open (caches w) DYNAMIC_CACHE)
                   DYNAMIC_CACHE
                   (fun c => Platform.cache_store c (request_key request) r))
                DYNAMIC_CACHE (request_key request) = Some r)
    by apply entry_update_store_same, find_open_some.
  split; [exact E|].
  rewrite staleWhileRevalidate_run. simpl. now rewrite E.
Qed.

Lemma staleWhileRevalidate_first_visit_warms_the_cache_witness :
  exists w',
    staleWhileRevalidate_settled (always (text_response 200 "page")) page_request
                                 empty_world
    = (Normal (Some (text_response 200 "page")), w')
    /\ fst (staleWhileRevalidate page_request w')
       = Normal (RetResponse (text_response 200 "page")).
Proof.
  destruct (staleWhileRevalidate_first_visit_warms_the_cache
              (always (text_response 200 "page")) page_request empty_world
              (text_response 200 "page") eq_refl eq_refl eq_refl eq_refl)
    as (w' & Hrun & _ & Hnext).
  exists w'. now split.
Defined.

(** X5: a refresh that fails, or that brings a non-success status, is
    swallowed: the caller has the cached entry, and every cache entry,
    the stale one included, stays as it was. *)
Theorem staleWhileRevalidate_failed_refresh_keeps_the_entry
        (net : Network) (request : Request) (w : World) (cached : Response) :
  Platform.entry (caches w) DYNAMIC_CACHE (request_key request) = Some cached ->
  (net (request_key request) = Rejected
   \/ exists r, net (request_key request) = Resolved r /\ ok r = false) ->
  exists w',
    staleWhileRevalidate_settled net request w = (Normal (Some cached), w')
    /\ same_entries (caches w) (caches w')
    /\ trace w' = (trace w ++ [EvFetch (request_key request)])%list.
Proof.
  intros Hhit Hfail. eexists.
  rewrite staleWhileRevalidate_settled_run, Hhit. cbv zeta.
  rewrite networkResponsePromise_run.
  destruct Hfail as [Hn|(r & Hn & Hok)]; rewrite Hn; [|rewrite Hok];
    (split; [reflexivity|]); simpl;
    (split; [apply same_entries_open | reflexivity]).
Qed.

Lemma staleWhileRevalidate_failed_refresh_keeps_the_entry_witness :
  exists w',
    staleWhileRevalidate_settled (always (text_response 502 "bad gateway"))
      page_request
      (world_with_dynamic (request_key page_request) (text_response 200 "stale"))
    = (Normal (Some (text_response 200 "stale")), w')
    /\ Platform.entry (caches w') DYNAMIC_CACHE (request_key page_request)
       = Some (text_response 200 "stale").
Proof.
  destruct (staleWhileRevalidate_failed_refresh_keeps_the_entry
              (always (text_response 502 "bad gateway")) page_request
              (world_with_dynamic (request_key page_request) (text_response 200 "stale"))
              (text_response 200 "stale") eq_refl
              (or_intror (ex_intro _ (text_response 502 "bad gateway")
                                   (conj eq_refl eq_refl))))
    as (w' & Hrun & Hsame & _).
  exists w'. split; [exact Hrun|]. now rewrite Hsame.
Defined.

(** ** Which cache an executor writes to *)

Lemma entries_open_put_other (s : CacheStorage) (target name : string)
      (f : Cache -> Cache) :
  name <> target ->
  Platform.entries (Platform.update (Platform.open s target) target f) name
  = Platform.entries s name.
Proof.
  intros Hne. unfold Platform.entries. rewrite find_update.
  destruct (String.eqb target name) eqn:E.
  - apply String.eqb_eq in E. congruence.
  - now rewrite find_open_other.
Qed.

Lemma entries_open_other (s : CacheStorage) (target name : string) :
  name <> target ->
  Platform.entries (Platform.open s target) name = Platform.entries s name.
Proof.
  intros Hne. unfold Platform.entries. now rewrite find_open_other.
Qed.

(** X22: each strategy writes to one cache at most: CacheFirst to the
    static cache, NetworkFirst and StaleWhileRevalidate to the dynamic
    cache, CacheOnly and NetworkOnly to none.  The entries of every
    other cache are the same list after the executor has run, whatever
    the network did. *)
Theorem executors_write_to_their_own_cache_only
        (net : Network) (strategy : Strategy) (request : Request)
        (w : World) (name : string) :
  write_target strategy <> Some name ->
  Platform.entries (caches (snd (respondWith net strategy request w))) name
  = Platform.entries (caches w) name.
Proof.
  intros Hname.
  assert (Hne : forall target, write_target strategy = Some target -> name <> target)
    by (intros target E <-; congruence).
  destruct strategy; unfold respondWith, lift_response; simpl in Hne.
  - unfold bind.
    destruct (Platform.match_any (caches w) (request_key request)) as [c|] eqn:Hm.
    + now rewrite (cacheFirst_hit net request w c Hm).
    + destruct (net (request_key request)) as [r|] eqn:Hn.
      * rewrite (cacheFirst_miss_resolved net request w r Hm Hn).
        destruct (ok r); simpl; [|reflexivity].
        destruct (puttable request r); simpl.
        -- apply entries_open_put_other. now apply Hne.
        -- apply entries_open_other. now apply Hne.
      * now rewrite (cacheFirst_miss_rejected net request w Hm Hn).
  - unfold bind. destruct (net (request_key request)) as [r|] eqn:Hn.
    + rewrite (networkFirst_resolved net request w r Hn).
      destruct (ok r); simpl; [|reflexivity].
      destruct (puttable request r); simpl.
      * apply entries_open_put_other. now apply Hne.
      * apply entries_open_other. now apply Hne.
    + now rewrite (networkFirst_rejected net request w Hn).
  - unfold bind. now rewrite cacheOnly_run.
  - unfold bind. rewrite networkOnly_run.
    now destruct (net (request_key request)).
  - rewrite staleWhileRevalidate_settled_run. cbv zeta.
    rewrite networkResponsePromise_run. simpl.
    destruct (net (request_key request)) as [r|]; simpl.
    + destruct (ok r); simpl.
      * destruct (puttable request r); simpl.
        -- apply entries_open_put_other. now apply Hne.
        -- apply entries_open_other. now apply Hne.
      * apply entries_open_other. now apply Hne.
    + apply entries_open_other. now apply Hne.
Qed.

(** A style sheet fetched by CacheFirst: the dynamic cache keeps its one
    entry. *)
Lemma executors_write_to_their_own_cache_only_witness :
  Platform.entries
    (caches (snd (respondWith (always (text_response 200 "css")) cacheFirstS
                    css_request
                    (world_with_dynamic (request_key page_request)
                                        (text_response 200 "page")))))
    DYNAMIC_CACHE
  = [(request_key page_request, text_response 200 "page")].
Proof.
  rewrite (executors_write_to_their_own_cache_only
             (always (text_response 200 "css")) cacheFirstS css_request
             (world_with_dynamic (request_key page_request)
                                 (text_response 200 "page"))
             DYNAMIC_CACHE ltac:(discriminate)).
  reflexivity.
Defined.

(** ** Lifecycle transitions compose *)

Lemma filter_idempotent {A} (p : A -> bool) (l : list A) :
  filter p (filter p l) = filter p l.
Proof.
  rewrite filter_twice. apply filter_ext. intros x. now destruct (p x).
Qed.

(** X6: running [activate] a second time changes nothing, and the caches it
    keeps stay in their order of creation. *)
Theorem activate_is_idempotent (w : World) :
  caches (snd (activate (snd (activate w)))) = caches (snd (activate w))
  /\ fst (activate (snd (activate w))) = Normal tt
  /\ Platform.keys (caches (snd (activate w)))
     = filter is_current (Platform.keys (caches w)).
Proof.
  destruct (activate_run w) as (w1 & Hrun1 & Hc1).
  destruct (activate_run w1) as (w2 & Hrun2 & Hc2).
  rewrite Hrun1. simpl. rewrite Hrun2. simpl.
  split; [|split; [reflexivity|]].
  - rewrite Hc2, Hc1. apply filter_idempotent.
  - rewrite Hc1. unfold Platform.keys.
    generalize (caches w). intros s.
    induction s as [|[n c] s IH]; simpl; [reflexivity|].
    destruct (is_current n); simpl; now rewrite IH.
Qed.

Lemma install_leaves_static_cache net resolve manifest w :
  Platform.find (caches (snd (install net resolve manifest w))) STATIC_CACHE <> None.
Proof.
  rewrite install_caches.
  destruct (manifest_responses net (map resolve manifest)).
  - rewrite find_update, String.eqb_refl.
    destruct (Platform.find (Platform.open (caches w) STATIC_CACHE) STATIC_CACHE) eqn:E;
      [discriminate|].
    exfalso. now apply (find_open_some (caches w) STATIC_CACHE).
  - apply find_open_some.
Qed.

(** X7: [activate] after [install] keeps what [install] stored: the static
    cache is still there with the same entries, and no cache of another
    generation is left. *)
Theorem activate_after_install_keeps_the_static_cache
        (net : Network) (resolve : string -> RequestKey)
        (manifest : list string) (w : World) :
  let installed := snd (install net resolve manifest w) in
  let activated := snd (activate installed) in
  Platform.find (caches activated) STATIC_CACHE <> None
  /\ Platform.entries (caches activated) STATIC_CACHE
     = Platform.entries (caches installed) STATIC_CACHE
  /\ Forall (fun N => N = STATIC_CACHE \/ N = DYNAMIC_CACHE)
            (Platform.keys (caches activated)).
Proof.
  cbv zeta.
  destruct (activate_run (snd (install net resolve manifest w)))
    as (w2 & Hrun & Hc).
  rewrite Hrun. simpl.
  assert (Hfind : Platform.find (caches w2) STATIC_CACHE
                  = Platform.find (caches (snd (install net resolve manifest w)))
                                  STATIC_CACHE).
  { rewrite Hc. now apply (find_filter_kept is_current). }
  split; [|split].
  - rewrite Hfind. apply install_leaves_static_cache.
  - unfold Platform.entries. now rewrite Hfind.
  - apply Forall_forall. intros N HN. rewrite Hc in HN.
    apply (keys_filter is_current) in HN. now apply is_current_spec.
Qed.

(** ** Install: what it stores, and running it again *)

Lemma store_all_in (rs : list (RequestKey * Response)) (c : Cache)
      (e : RequestKey * Response) :
  In e (store_all c rs) -> In e c \/ In e rs.
Proof.
  revert c. induction rs as [|[k r] rs IH]; intros c; simpl; [auto|].
  intros H.
  change (In e (store_all (Platform.cache_store c k r) rs)) in H.
  destruct (IH _ H) as [H'|H']; [|auto].
  unfold Platform.cache_store in H'. apply in_app_or in H'.
  destruct H' as [H'|[H'|[]]]; [|auto].
  apply filter_In in H'. tauto.
Qed.

Lemma collect_keys (net : Network) (ks : list RequestKey)
      (rs : list (RequestKey * Response)) :
  collect net ks = Some rs ->
  map fst rs = ks /\ forall k r, In (k, r) rs -> net k = Resolved r /\ ok r = true.
Proof.
  revert rs. induction ks as [|k ks IH]; simpl; intros rs H.
  - inversion H; subst. split; [reflexivity | contradiction].
  - destruct (net k) as [r|] eqn:Hn; [|discriminate].
    destruct (ok r) eqn:Hok; [|discriminate].
    destruct (Platform.accepts_response r); [|discriminate]. simpl in H.
    destruct (collect net ks) as [rs'|]; [|discriminate].
    inversion H; subst. destruct (IH rs' eq_refl) as [Hk Hr].
    split; [simpl; now rewrite Hk|].
    intros k' r' [E|Hin]; [inversion E; subst; auto | now apply Hr].
Qed.

Lemma manifest_responses_keys (net : Network) (ks : list RequestKey)
      (rs : list (RequestKey * Response)) :
  manifest_responses net ks = Some rs ->
  map fst rs = ks /\ forall k r, In (k, r) rs -> net k = Resolved r /\ ok r = true.
Proof.
  unfold manifest_responses.
  destruct (forallb Platform.http_url ks); [apply collect_keys | discriminate].
Qed.

(** X8: whatever the manifest, the network and the state before, every entry
    of the static cache after [install] was there before or is a 2xx
    response the network gave for its key. *)
Theorem install_stores_only_successful_responses
        (net : Network) (resolve : string -> RequestKey)
        (manifest : list string) (w : World) (k : RequestKey) (r : Response) :
  In (k, r) (Platform.entries (caches (snd (install net resolve manifest w)))
                              STATIC_CACHE) ->
  In (k, r) (Platform.entries (caches w) STATIC_CACHE)
  \/ (net k = Resolved r /\ ok r = true /\ In k (map resolve manifest)).
Proof.
  rewrite install_caches.
  destruct (manifest_responses net (map resolve manifest)) as [rs|] eqn:Hc.
  - rewrite entries_update by apply find_open_some. rewrite entries_open.
    intros H. apply store_all_in in H. destruct H as [H|H]; [now left|].
    right. destruct (manifest_responses_keys _ _ _ Hc) as [Hk Hr].
    destruct (Hr k r H) as [Hn Hok]. repeat split; auto.
    rewrite <- Hk. apply in_map_iff. now exists (k, r).
  - rewrite entries_open. now left.
Qed.

(** The style sheet of the two-URL manifest, installed into an empty
    storage. *)
Lemma install_stores_only_successful_responses_witness :
  In ("https://docs.example.org/app.css", text_response 200 "asset")
     (Platform.entries
        (caches (snd (install (always (text_response 200 "asset"))
                        (resolve_at sample_origin) sample_manifest empty_world)))
        STATIC_CACHE)
  /\ (In ("https://docs.example.org/app.css", text_response 200 "asset")
         (Platform.entries (caches empty_world) STATIC_CACHE)
      \/ (always (text_response 200 "asset") "https://docs.example.org/app.css"
          = Resolved (text_response 200 "asset")
          /\ ok (text_response 200 "asset") = true
          /\ In "https://docs.example.org/app.css"
                (map (resolve_at sample_origin) sample_manifest))).
Proof.
  assert (H : In ("https://docs.example.org/app.css", text_response 200 "asset")
                (Platform.entries
                   (caches (snd (install (always (text_response 200 "asset"))
                                   (resolve_at sample_origin) sample_manifest
                                   empty_world)))
                   STATIC_CACHE))
    by (right; left; reflexivity).
  split; [exact H|].
  exact (install_stores_only_successful_responses
           (always (text_response 200 "asset")) (resolve_at sample_origin)
           sample_manifest empty_world
           "https://docs.example.org/app.css" (text_response 200 "asset") H).
Defined.

Lemma store_all_app (rs rs' : list (RequestKey * Response)) (c : Cache) :
  store_all c (rs ++ rs') = store_all (store_all c rs) rs'.
Proof. unfold store_all. apply fold_left_app. Qed.

Lemma filter_none {A} (p : A -> bool) (l : list A) :
  (forall x, In x l -> p x = false) -> filter p l = [].
Proof.
  induction l as [|x l IH]; simpl; intros H; [reflexivity|].
  rewrite (H x (or_introl eq_refl)). apply IH. auto.
Qed.

(** A series of [put]s under distinct keys drops the old entries under
    these keys and appends the new ones in order. *)
Lemma store_all_distinct (rs : list (RequestKey * Response)) (c : Cache) :
  NoDup (map fst rs) ->
  store_all c rs =
  (filter (fun e => negb (existsb (String.eqb (fst e)) (map fst rs))) c ++ rs)%list.
Proof.
  revert c. induction rs as [|[k r] rs IH]; intros c Hnd.
  - simpl. rewrite app_nil_r. symmetry. now apply filter_all.
  - simpl in Hnd. inversion Hnd as [|? ? Hk Hnd']; subst.
    change (store_all c ((k, r) :: rs))
      with (store_all (Platform.cache_store c k r) rs).
    rewrite (IH _ Hnd'). unfold Platform.cache_store, Platform.cache_remove.
    rewrite filter_app, filter_twice. simpl.
    assert (E : existsb (String.eqb k) (map fst rs) = false).
    { destruct (existsb (String.eqb k) (map fst rs)) eqn:B; [|reflexivity].
      apply existsb_exists in B. destruct B as (k' & Hin & B).
      apply String.eqb_eq in B; subst k'. contradiction. }
    rewrite E. simpl. rewrite <- app_assoc. simpl. f_equal.
    apply filter_ext. intros [k' r']. simpl.
    now rewrite negb_orb.
Qed.

Lemma store_all_idempotent (rs : list (RequestKey * Response)) (c : Cache) :
  NoDup (map fst rs) ->
  store_all (store_all c rs) rs = store_all c rs.
Proof.
  intros Hnd. rewrite (store_all_distinct rs (store_all c rs) Hnd).
  rewrite (store_all_distinct rs c Hnd).
  rewrite filter_app, filter_idempotent.
  rewrite (filter_none _ rs); [now rewrite app_nil_r|].
  intros [k r] Hin. simpl. apply negb_false_iff. apply existsb_eqb_in.
  apply in_map_iff. now exists (k, r).
Qed.

Lemma update_ext (s : CacheStorage) (name : string) (f g : Cache -> Cache) :
  (forall c, f c = g c) -> Platform.update s name f = Platform.update s name g.
Proof.
  intros H. induction s as [|[n c] s IH]; simpl; [reflexivity|].
  destruct (String.eqb n name); [now rewrite H | now rewrite IH].
Qed.

Lemma open_existing (s : CacheStorage) (name : string) :
  Platform.find s name <> None -> Platform.open s name = s.
Proof.
  intros H. unfold Platform.open.
  destruct (Platform.find s name); [reflexivity | congruence].
Qed.

(** X9: repeating [install] against the same network leaves the cache
    storage exactly as the first run left it, whatever was cached
    before and whether or not the manifest could be fetched. *)
Theorem install_is_idempotent
        (net : Network) (resolve : string -> RequestKey)
        (manifest : list string) (w : World) :
  NoDup (map resolve manifest) ->
  caches (snd (install net resolve manifest (snd (install net resolve manifest w))))
  = caches (snd (install net resolve manifest w)).
Proof.
  intros Hnd. rewrite (install_caches net resolve manifest (snd _)).
  pose proof (install_leaves_static_cache net resolve manifest w) as Hfind.
  rewrite (install_caches net resolve manifest w) in *.
  destruct (manifest_responses net (map resolve manifest)) as [rs|] eqn:Hc.
  - rewrite (open_existing _ _ Hfind), update_twice.
    apply update_ext. intros c. apply store_all_idempotent.
    destruct (manifest_responses_keys _ _ _ Hc) as [Hk _]. now rewrite Hk.
  - now apply open_existing.
Qed.

Lemma install_is_idempotent_witness :
  caches (snd (install (always (text_response 200 "asset")) (resolve_at sample_origin)
                 sample_manifest
                 (snd (install (always (text_response 200 "asset"))
                         (resolve_at sample_origin) sample_manifest empty_world))))
  = [(STATIC_CACHE, [("https://docs.example.org/", text_response 200 "asset");
                     ("https://docs.example.org/app.css", text_response 200 "asset")])].
Proof.
  rewrite (install_is_idempotent (always (text_response 200 "asset"))
             (resolve_at sample_origin) sample_manifest empty_world).
  - reflexivity.
  - repeat constructor; simpl; intuition discriminate.
Defined.

(** ** The sweep, repeated *)

Lemma cleanupCaches_run Date_parse now (w : World) :
  NoDup (map fst (Platform.entries (caches w) DYNAMIC_CACHE)) ->
  exists w',
    cleanupCaches Date_parse now w = (Normal tt, w')
    /\ Platform.entries (caches w') DYNAMIC_CACHE =
       filter (fun e => negb (expired Date_parse now (snd e)))
              (Platform.entries (caches w) DYNAMIC_CACHE)
    /\ (forall name, name <> DYNAMIC_CACHE ->
                     Platform.find (caches w') name = Platform.find (caches w) name).
Proof.
  intros Hnd.
  unfold cleanupCaches, caches_keys, caches_open, cache_keys, read_caches,
    modify_caches.
  unfold bind at 1. unfold bind at 1. unfold bind at 1. unfold bind at 1.
  unfold ret at 1. cbv zeta. simpl caches.
  set (w0 := mkWorld (Platform.open (caches w) DYNAMIC_CACHE) (trace w)).
  assert (He0 : Platform.entries (caches w0) DYNAMIC_CACHE
                = Platform.entries (caches w) DYNAMIC_CACHE)
    by apply entries_open.
  destruct (sweep_loop Date_parse now
              (map fst (Platform.entries (caches w0) DYNAMIC_CACHE)) w0)
    as (w' & Hrun & _ & Ho & Hc).
  { apply find_open_some. }
  { now rewrite He0. }
  { now rewrite He0. }
  { auto. }
  exists w'. split; [exact Hrun|]. split.
  - rewrite Hc, He0. apply filter_ext_in. intros e Hin.
    rewrite existsb_eqb_in; [reflexivity|]. now apply in_map.
  - intros name Hne. rewrite (Ho name Hne). unfold w0. simpl caches.
    now apply find_open_other.
Qed.

Lemma expired_monotone Date_parse (now now' : Z) (r : Response) :
  now <= now' -> expired Date_parse now r = true -> expired Date_parse now' r = true.
Proof.
  unfold expired. destruct (capture_time Date_parse r); [|discriminate].
  rewrite !Z.ltb_lt. lia.
Qed.

(** X12: a later sweep subsumes an earlier one: sweeping at [now] and then at
    [now' >= now] leaves the dynamic cache as a single sweep at [now']
    does.  With [now' = now]: a second sweep removes nothing. *)
Theorem cleanupCaches_later_sweep_subsumes
        (Date_parse : string -> option Z) (now now' : Z) (w : World) :
  NoDup (map fst (Platform.entries (caches w) DYNAMIC_CACHE)) ->
  now <= now' ->
  let first := snd (cleanupCaches Date_parse now w) in
  fst (cleanupCaches Date_parse now' first) = Normal tt
  /\ Platform.entries (caches (snd (cleanupCaches Date_parse now' first))) DYNAMIC_CACHE
     = Platform.entries (caches (snd (cleanupCaches Date_parse now' w))) DYNAMIC_CACHE
  /\ Platform.entries (caches (snd (cleanupCaches Date_parse now first))) DYNAMIC_CACHE
     = Platform.entries (caches first) DYNAMIC_CACHE.
Proof.
  intros Hnd Hle. cbv zeta.
  destruct (cleanupCaches_run Date_parse now w Hnd) as (w1 & Hrun1 & Hc1 & _).
  assert (Hnd1 : NoDup (map fst (Platform.entries (caches w1) DYNAMIC_CACHE)))
    by (rewrite Hc1; now apply NoDup_keys_filter).
  destruct (cleanupCaches_run Date_parse now' w1 Hnd1) as (w2 & Hrun2 & Hc2 & _).
  destruct (cleanupCaches_run Date_parse now' w Hnd) as (w3 & Hrun3 & Hc3 & _).
  destruct (cleanupCaches_run Date_parse now w1 Hnd1) as (w4 & Hrun4 & Hc4 & _).
  rewrite Hrun1. simpl. rewrite Hrun2, Hrun3, Hrun4. simpl.
  split; [reflexivity|]. split.
  - rewrite Hc2, Hc3, Hc1, filter_twice. apply filter_ext. intros e.
    destruct (expired Date_parse now (snd e)) eqn:E; simpl; [|reflexivity].
    now rewrite (expired_monotone Date_parse now now' (snd e) Hle E).
  - rewrite Hc4, Hc1. apply filter_idempotent.
Qed.

(** The sweep of the sample cache, repeated a day later. *)
Lemma cleanupCaches_later_sweep_subsumes_witness :
  map fst (Platform.entries
             (caches (snd (cleanupCaches seconds_header (sweep_now + 86400000)
                             (snd (cleanupCaches seconds_header sweep_now sweep_world)))))
             DYNAMIC_CACHE)
  = ["https://docs.example.org/undated"].
Proof.
  assert (Hnd : NoDup (map fst (Platform.entries (caches sweep_world) DYNAMIC_CACHE))).
  { repeat constructor; simpl; intuition discriminate. }
  rewrite (proj1 (proj2 (cleanupCaches_later_sweep_subsumes seconds_header
                           sweep_now (sweep_now + 86400000) sweep_world Hnd
                           ltac:(unfold sweep_now; lia)))).
  reflexivity.
Defined.

(** ** Push payloads and background sync *)

(** X13: every push event with data displays one notification, titled and
    worded as the payload says; its tag is the payload's tag when that
    is a non-empty string and ["default"] otherwise, so it is never
    empty; an event without data displays nothing. *)
Theorem onPush_always_tags_the_notification (payload : PushPayload) :
  onPush None = None
  /\ exists n,
       onPush (Some payload) = Some n
       /\ notification_title n = push_title payload
       /\ opt_body (notification_options n) = push_body payload
       /\ opt_tag (notification_options n) <> ""
       /\ (push_tag payload = Some (opt_tag (notification_options n))
           \/ (opt_tag (notification_options n) = "default"
               /\ (push_tag payload = None \/ push_tag payload = Some "")))
       /\ (opt_requireInteraction (notification_options n) = true
           <-> push_requireInteraction payload = Some true).
Proof.
  split; [reflexivity|]. eexists. split; [reflexivity|]. simpl.
  split; [reflexivity|]. split; [reflexivity|].
  unfold string_or, bool_or_false.
  split; [|split].
  - destruct (push_tag payload) as [t|]; [|discriminate].
    destruct (String.eqb t "") eqn:E; [discriminate|].
    now apply String.eqb_neq.
  - destruct (push_tag payload) as [t|]; [|auto].
    destruct (String.eqb t "") eqn:E; [|auto].
    apply String.eqb_eq in E; subst. auto.
  - destruct (push_requireInteraction payload) as [[|]|]; split; congruence.
Qed.

(** X14: background sync never delivers anything: the event store behind it
    is a placeholder that is always empty, so whatever the tag, the
    endpoint and the network, the [sync] listener sends no request and
    changes nothing. *)
Theorem onSync_sends_nothing
        (net : Network) (ANALYTICS_ENDPOINT : option string)
        (tag : string) (w : World) :
  run_listener (onSync net ANALYTICS_ENDPOINT tag) w = (Normal tt, w)
  /\ (tag = "background-sync" <-> onSync net ANALYTICS_ENDPOINT tag <> None).
Proof.
  unfold onSync. destruct (String.eqb tag "background-sync") eqn:E.
  - apply String.eqb_eq in E. split; [reflexivity|]. split; [discriminate | auto].
  - apply String.eqb_neq in E. split; [reflexivity|]. split; [contradiction | congruence].
Qed.

(** ** What install leaves alone *)

Lemma install_frame net resolve manifest w (name : string) :
  name <> STATIC_CACHE ->
  Platform.find (caches (snd (install net resolve manifest w))) name
  = Platform.find (caches w) name.
Proof.
  intros Hne. rewrite install_caches.
  destruct (manifest_responses net (map resolve manifest)).
  - rewrite find_update.
    destruct (String.eqb STATIC_CACHE name) eqn:E.
    + apply String.eqb_eq in E. congruence.
    + now apply find_open_other.
  - now apply find_open_other.
Qed.

(** X10: [install] touches the static cache only: every other cache, the
    dynamic one included, is afterwards what it was before, whether or
    not the manifest could be fetched, and the static cache exists. *)
Theorem install_touches_only_the_static_cache
        (net : Network) (resolve : string -> RequestKey)
        (manifest : list string) (w : World) (name : string) :
  name <> STATIC_CACHE ->
  Platform.find (caches (snd (install net resolve manifest w))) name
  = Platform.find (caches w) name
  /\ Platform.find (caches (snd (install net resolve manifest w))) STATIC_CACHE
     <> None.
Proof.
  intros Hne. split; [now apply install_frame | apply install_leaves_static_cache].
Qed.

Lemma install_touches_only_the_static_cache_witness :
  Platform.find
    (caches (snd (install (always (text_response 200 "asset"))
                    (resolve_at sample_origin) sample_manifest
                    (world_with_dynamic "https://docs.example.org/"
                                        (text_response 200 "visited")))))
    DYNAMIC_CACHE
  = Some [("https://docs.example.org/", text_response 200 "visited")].
Proof.
  rewrite (proj1 (install_touches_only_the_static_cache
                    (always (text_response 200 "asset")) (resolve_at sample_origin)
                    sample_manifest
                    (world_with_dynamic "https://docs.example.org/"
                                        (text_response 200 "visited"))
                    DYNAMIC_CACHE ltac:(discriminate))).
  reflexivity.
Defined.

(** X11: a page that [install] has put into the static cache is not served
    from there: a request routed to StaleWhileRevalidate reads the
    dynamic cache only, so with the network down and no copy in the
    dynamic cache the caller gets [null], whatever the manifest held. *)
Theorem precached_pages_are_not_served_offline
        (net down : Network) (resolve : string -> RequestKey)
        (manifest : list string) (request : Request) (w : World) :
  method request = "GET" ->
  JSString.startsWith (href (url request)) "http" = true ->
  getCacheStrategy request = staleWhileRevalidateS ->
  Platform.entry (caches w) DYNAMIC_CACHE (request_key request) = None ->
  down (request_key request) = Rejected ->
  exists respond,
    onFetch down request = Some respond
    /\ fst (respond (snd (install net resolve manifest w))) = Normal None.
Proof.
  intros Hget Hhttp Hroute Hmiss Hdown. eexists. split.
  - unfold onFetch. rewrite Hget, Hhttp, Hroute. reflexivity.
  - simpl. apply staleWhileRevalidate_exhausted; [|exact Hdown].
    unfold Platform.entry.
    rewrite (install_frame net resolve manifest w
               DYNAMIC_CACHE ltac:(discriminate)).
    exact Hmiss.
Qed.

(** The root page is in the manifest and fetched by [install]; offline,
    the request for it is answered with [null]. *)
Lemma precached_pages_are_not_served_offline_witness :
  Platform.entry
    (caches (snd (install (always (text_response 200 "asset"))
                    (resolve_at sample_origin) sample_manifest empty_world)))
    STATIC_CACHE "https://docs.example.org/" = Some (text_response 200 "asset")
  /\ exists respond,
       onFetch offline (get_request "docs.example.org" "/" []) = Some respond
       /\ fst (respond (snd (install (always (text_response 200 "asset"))
                               (resolve_at sample_origin) sample_manifest
                               empty_world))) = Normal None.
Proof.
  split; [reflexivity|].
  apply (precached_pages_are_not_served_offline
           (always (text_response 200 "asset")) offline
           (resolve_at sample_origin) sample_manifest
           (get_request "docs.example.org" "/" []) empty_world);
    reflexivity.
Defined.

(** * Properties of the page scripts *)

(** ** The validation script *)

(** X15: the validation script can never report full marks: nothing ever sets
    [linkValidationActive], so at most five of the six checks pass and
    the verdict is always that some optimizations need attention; five
    pass exactly when the monitor, a registered worker, a lazy image, a
    cache and a positive page load time are all observed. *)
Theorem validation_never_reports_all_passed (o : Page.Observations) :
  let report := Page.validatePerformanceImplementation o in
  Page.totalTests report = 6%nat
  /\ (Page.passedTests report <= 5)%nat
  /\ Page.verdict report = Page.NeedAttention
  /\ Page.linkValidationActive (Page.report_results report) = false
  /\ (Page.passedTests report = 5%nat <->
      Page.monitor_defined o = true
      /\ (exists n, Page.registration_count o = Some (S n))
      /\ (0 < Page.lazy_image_count o)%nat
      /\ (exists n, Page.cache_count o = Some (S n))
      /\ Page.pageLoadTime_positive o = Some true).
Proof.
  destruct o as [monitor regs lazy cachesn plt]. cbv zeta.
  unfold Page.validatePerformanceImplementation, Page.collect_results, Page.values.
  simpl.
  assert (Hregs : Page.positive_count regs = true <-> exists n, regs = Some (S n)).
  { destruct regs as [[|n]|]; simpl; split; try discriminate;
      try (intros [m H]; discriminate); eauto. }
  assert (Hcaches : Page.positive_count cachesn = true <-> exists n, cachesn = Some (S n)).
  { destruct cachesn as [[|n]|]; simpl; split; try discriminate;
      try (intros [m H]; discriminate); eauto. }
  assert (Hlazy : (0 <? lazy)%nat = true <-> (0 < lazy)%nat) by apply Nat.ltb_lt.
  assert (Hplt : match plt with Some b => b | None => false end = true
                 <-> plt = Some true).
  { destruct plt as [[|]|]; split; congruence. }
  revert Hregs Hlazy Hcaches Hplt.
  destruct monitor, (Page.positive_count regs), (0 <? lazy)%nat,
    (Page.positive_count cachesn), (match plt with Some b => b | None => false end);
    intros Hregs Hlazy Hcaches Hplt; simpl;
    (split; [reflexivity|]); (split; [lia|]); (split; [reflexivity|]);
    (split; [reflexivity|]);
    (split; [intros H; try discriminate H; tauto|]);
    intros (H1 & H2 & H3 & H4 & H5);
    try reflexivity; exfalso;
    try discriminate H1;
    try (apply Hregs in H2; discriminate H2);
    try (apply Hlazy in H3; discriminate H3);
    try (apply Hcaches in H4; discriminate H4);
    try (apply Hplt in H5; discriminate H5).
Qed.

(** ** The event log *)

Lemma skipn_app_short {A} (n : nat) (l l' : list A) :
  (n <= length l)%nat -> skipn n (l ++ l') = (skipn n l ++ l')%list.
Proof.
  intros H. rewrite skipn_app.
  replace (n - length l)%nat with 0%nat by lia. reflexivity.
Qed.

(** X16: [trackEvent] keeps a bounded log: whatever was stored, afterwards the
    log holds at most 1000 events (the old length plus one, capped), the
    new event is its last element, and it is the tail of the old log
    followed by the new event; nothing is dropped while the old log
    holds fewer than 1000 events. *)
Theorem trackEvent_keeps_the_last_1000
        (env : Page.PageEnv) (eventName data : string)
        (stored : option (list Page.TrackedEvent)) :
  let old := match stored with Some l => l | None => [] end in
  let event := Page.mkTrackedEvent eventName data (Page.env_now env)
                 (Page.env_href env) (Page.env_userAgent env) in
  let new := fst (Page.trackEvent env eventName data stored) in
  length new = Nat.min (S (length old)) 1000
  /\ (exists kept, new = kept ++ [event] /\ exists dropped, old = dropped ++ kept)%list
  /\ ((length old < 1000)%nat -> new = (old ++ [event])%list).
Proof.
  cbv zeta. unfold Page.trackEvent, Page.splice0. cbv zeta. simpl fst.
  set (old := match stored with Some l => l | None => [] end).
  set (event := Page.mkTrackedEvent eventName data (Page.env_now env)
                  (Page.env_href env) (Page.env_userAgent env)).
  change 1000%nat with Page.MAX_EVENTS.
  assert (Hcap : (0 < Page.MAX_EVENTS)%nat) by (unfold Page.MAX_EVENTS; lia).
  revert Hcap. generalize Page.MAX_EVENTS. intros cap Hcap.
  rewrite length_app. change (length [event]) with 1%nat. rewrite Nat.add_1_r.
  destruct (cap <? S (length old))%nat eqn:E.
  - apply Nat.ltb_lt in E. split; [|split].
    + rewrite length_skipn, length_app.
      change (length [event]) with 1%nat. lia.
    + exists (skipn (S (length old) - cap) old). split.
      * apply skipn_app_short. lia.
      * exists (firstn (S (length old) - cap) old).
        symmetry. apply firstn_skipn.
    + intros H. lia.
  - apply Nat.ltb_ge in E. split; [|split].
    + rewrite length_app. change (length [event]) with 1%nat. lia.
    + exists old. split; [reflexivity|]. now exists [].
    + reflexivity.
Qed.

(** ** The memory cache in front of [fetch] *)

Lemma map_get_set (m : Page.MemoryCache) (key key' : string) (v : Page.CachedResponse) :
  Page.map_get (Page.map_set m key v) key' =
  if String.eqb key key' then Some v else Page.map_get m key'.
Proof.
  induction m as [|[k v0] m IH]; simpl.
  - destruct (String.eqb key key'); reflexivity.
  - destruct (String.eqb k key) eqn:E; simpl.
    + apply String.eqb_eq in E; subst k.
      now destruct (String.eqb key key').
    + rewrite IH. destruct (String.eqb key key') eqn:E'; [|reflexivity].
      apply String.eqb_eq in E'; subst key'. now rewrite E.
Qed.

Lemma map_get_delete (m : Page.MemoryCache) (key key' : string) :
  Page.map_get (Page.map_delete m key) key' =
  if String.eqb key key' then None else Page.map_get m key'.
Proof.
  induction m as [|[k v0] m IH]; simpl.
  - now destruct (String.eqb key key').
  - destruct (String.eqb k key) eqn:E; simpl.
    + apply String.eqb_eq in E; subst k. rewrite IH.
      now destruct (String.eqb key key').
    + rewrite IH. destruct (String.eqb k key') eqn:E1; [|reflexivity].
      apply String.eqb_eq in E1; subst k.
      rewrite String.eqb_sym in E. now rewrite E.
Qed.

(** X17: a successful response to a request that is not a POST, stored at
    time [stored_at], answers the same request for the next five
    minutes without the network: the call is a hit, returns that
    response, and whatever the original [fetch] would do is irrelevant. *)
Theorem memory_cache_answers_within_five_minutes
        (stored_at now later : Z) (url : string) (options : Page.FetchOptions)
        (response : Response) (m : Page.Monitor)
        (original : string -> FetchResult) :
  ok response = true ->
  Page.is_POST options = false ->
  now - stored_at < 5 * 60 * 1000 ->
  let m1 := snd (Page.fetch_after stored_at url options (Resolved response) m) in
  Page.intercepted_fetch now later original url options m1
  = (Normal response,
     Page.mkMonitor (Page.memoryCache m1) (S (Page.cacheHits m1)) (Page.cacheMisses m1)
                    (Page.tracked m1 ++ [("cache_hit", url)])%list).
Proof.
  intros Hok Hpost Hfresh. cbv zeta.
  unfold Page.intercepted_fetch, Page.fetch_before, Page.fetch_after.
  rewrite Hok, Hpost. simpl.
  rewrite map_get_set, String.eqb_refl. simpl.
  assert (E : (now - stored_at <? Page.cacheTimeout) = true)
    by (apply Z.ltb_lt; exact Hfresh).
  now rewrite E.
Qed.

Lemma memory_cache_answers_within_five_minutes_witness :
  fst (Page.intercepted_fetch 299999 300500 (fun _ => Rejected)
         "/api/items" sample_options
         (snd (Page.fetch_after 0 "/api/items" sample_options
                 (Resolved (text_response 200 "[]")) empty_monitor)))
  = Normal (text_response 200 "[]").
Proof.
  rewrite (memory_cache_answers_within_five_minutes 0 299999 300500 "/api/items"
             sample_options (text_response 200 "[]") empty_monitor
             (fun _ => Rejected) eq_refl eq_refl ltac:(lia)).
  reflexivity.
Defined.

Lemma fetch_before_miss (now : Z) (url : string) (options : Page.FetchOptions)
      (m m' : Page.Monitor) :
  Page.fetch_before now url options m = (Page.Miss, m') ->
  Page.map_get (Page.memoryCache m') (Page.cacheKey url options) = None
  /\ (forall cached,
         Page.map_get (Page.memoryCache m) (Page.cacheKey url options) = Some cached ->
         5 * 60 * 1000 <= now - Page.cached_timestamp cached)
  /\ (forall key, key <> Page.cacheKey url options ->
                  Page.map_get (Page.memoryCache m') key
                  = Page.map_get (Page.memoryCache m) key)
  /\ Page.cacheHits m' = Page.cacheHits m
  /\ Page.cacheMisses m' = Page.cacheMisses m.
Proof.
  unfold Page.fetch_before.
  destruct (Page.map_get (Page.memoryCache m) (Page.cacheKey url options))
    as [cached|] eqn:Hget.
  - destruct (now - Page.cached_timestamp cached <? Page.cacheTimeout) eqn:E;
      [discriminate|].
    intros H. inversion H; subst; clear H. simpl.
    split; [now rewrite map_get_delete, String.eqb_refl|].
    split.
    { intros c Hc. inversion Hc; subst. apply Z.ltb_ge in E. exact E. }
    split; [|split; reflexivity].
    intros key Hne. rewrite map_get_delete.
    destruct (String.eqb (Page.cacheKey url options) key) eqn:E'; [|reflexivity].
    apply String.eqb_eq in E'. congruence.
  - intros H. inversion H; subst; clear H.
    split; [exact Hget|]. split; [intros c Hc; discriminate|].
    repeat split.
Qed.

(** X18: when the interceptor does not answer from the memory cache, the
    key is not in the memory cache any more: an entry that has reached
    the age of five minutes is evicted before the network is asked; no
    other key is touched and no counter moves. *)
Theorem memory_cache_evicts_on_miss
        (now : Z) (url : string) (options : Page.FetchOptions)
        (m m' : Page.Monitor) :
  Page.fetch_before now url options m = (Page.Miss, m') ->
  Page.map_get (Page.memoryCache m') (Page.cacheKey url options) = None
  /\ (forall cached,
         Page.map_get (Page.memoryCache m) (Page.cacheKey url options) = Some cached ->
         5 * 60 * 1000 <= now - Page.cached_timestamp cached)
  /\ (forall key, key <> Page.cacheKey url options ->
                  Page.map_get (Page.memoryCache m') key
                  = Page.map_get (Page.memoryCache m) key)
  /\ Page.cacheHits m' = Page.cacheHits m
  /\ Page.cacheMisses m' = Page.cacheMisses m.
Proof. apply fetch_before_miss. Qed.

(** An entry stored at time 0 and looked up five minutes later. *)
Lemma memory_cache_evicts_on_miss_witness :
  Page.map_get
    (Page.memoryCache
       (snd (Page.fetch_before 300000 "/api/items" sample_options
               (snd (Page.fetch_after 0 "/api/items" sample_options
                       (Resolved (text_response 200 "[]")) empty_monitor)))))
    (Page.cacheKey "/api/items" sample_options) = None.
Proof.
  exact (proj1 (memory_cache_evicts_on_miss 300000 "/api/items" sample_options
                  (snd (Page.fetch_after 0 "/api/items" sample_options
                          (Resolved (text_response 200 "[]")) empty_monitor))
                  _ eq_refl)).
Defined.


(** X20: every call of the interceptor that returns a response counts as
    exactly one hit or one miss; a call whose fetch fails counts as
    neither; and each call tracks exactly one event. *)
Theorem interceptor_counts_each_call_once
        (before after : Z) (original : string -> FetchResult)
        (url : string) (options : Page.FetchOptions) (m : Page.Monitor) :
  let result := Page.intercepted_fetch before after original url options m in
  length (Page.tracked (snd result)) = S (length (Page.tracked m))
  /\ match fst result with
     | Normal _ =>
         (Page.cacheHits (snd result) + Page.cacheMisses (snd result)
          = S (Page.cacheHits m + Page.cacheMisses m))%nat
     | Throw _ =>
         Page.cacheHits (snd result) = Page.cacheHits m
         /\ Page.cacheMisses (snd result) = Page.cacheMisses m
         /\ original url = Rejected
     end.
Proof.
  cbv zeta. unfold Page.intercepted_fetch, Page.fetch_before.
  destruct (Page.map_get (Page.memoryCache m) (Page.cacheKey url options))
    as [cached|].
  - destruct (before - Page.cached_timestamp cached <? Page.cacheTimeout); simpl.
    + rewrite length_app. simpl. split; lia.
    + unfold Page.fetch_after. destruct (original url); simpl;
        rewrite length_app; simpl; repeat split; (lia || reflexivity).
  - unfold Page.fetch_after. destruct (original url); simpl;
      rewrite length_app; simpl; repeat split; (lia || reflexivity).
Qed.

(** ** Link validation *)

Lemma check_link_url probe (now : Z) (href : string) :
  Page.link_url (Page.check_link probe now href) = href.
Proof. unfold Page.check_link. now destruct (probe href). Qed.

Lemma check_link_valid probe (now : Z) (href : string) :
  Page.link_valid (Page.check_link probe now href) = link_reachable probe href.
Proof. unfold Page.check_link, link_reachable. now destruct (probe href). Qed.

Lemma check_links_urls probe clock (i : nat) (links : list string) :
  map Page.link_url (Page.check_links probe clock i links) = links.
Proof.
  revert i. induction links as [|href links IH]; intros i; simpl; [reflexivity|].
  now rewrite IH, check_link_url.
Qed.

Lemma check_links_broken probe clock (i : nat) (links : list string) :
  map Page.link_url
      (filter (fun result => negb (Page.link_valid result))
              (Page.check_links probe clock i links))
  = filter (fun href => negb (link_reachable probe href)) links.
Proof.
  revert i. induction links as [|href links IH]; intros i; simpl; [reflexivity|].
  rewrite check_link_valid. destruct (link_reachable probe href); simpl.
  - apply IH.
  - now rewrite check_link_url, IH.
Qed.

(** X21: [validateLinks] records one result per link, in document order; a
    link counts as valid exactly when its probe resolved with a 2xx or
    with status 0 (an opaque response); the event it tracks lists, in
    order, exactly the links that are not valid, with their number, and
    no event is tracked when every link is valid. *)
Theorem validateLinks_reports_exactly_the_broken_links
        (probe : string -> FetchResult) (clock : nat -> Z) (links : list string) :
  let results := fst (Page.validateLinks probe clock links) in
  let broken := filter (fun href => negb (link_reachable probe href)) links in
  map Page.link_url results = links
  /\ Forall (fun result => Page.link_valid result
                           = link_reachable probe (Page.link_url result)) results
  /\ snd (Page.validateLinks probe clock links)
     = match broken with
       | [] => None
       | _ :: _ => Some (Page.mkBrokenLinks (length broken) broken)
       end.
Proof.
  cbv zeta. unfold Page.validateLinks. simpl.
  split; [apply check_links_urls|]. split.
  - generalize 0%nat. induction links as [|href links IH]; intros i; simpl;
      constructor; [|apply IH].
    now rewrite check_link_url, check_link_valid.
  - rewrite <- (length_map Page.link_url), check_links_broken.
    now destruct (filter (fun href => negb (link_reachable probe href)) links).
Qed.
